(** * APIRoute: session-authenticated CRUD over bus records

    The repository holds two variants of the same Express application:
    [src/server.js] (Estonian messages, explicit presence check in the
    create route, [runValidators] in the update route, no logout route) and
    [src/unnamed/part_001] (English messages, Swagger annotations, a logout
    route).  Both are embedded below, route by route, over a common model of
    the collaborators they call: JSON request bodies, Mongoose models built
    from the two schemas, express-session and bcrypt. *)

From stdpp Require Import base option list strings gmap fin_maps.
From Stdlib Require Import ZArith Ascii String DecimalString.

Set Default Proof Using "Type".

(** ** JavaScript values carried by a JSON request body

    The routes only read scalar properties of [req.body].  Numbers are the
    integer-valued ones; nested objects and arrays are outside the model. *)

Inductive JsValue : Type :=
| JUndefined
| JNull
| JBool (b : bool)
| JNumber (n : Z)
| JString (s : string).

#[global] Instance JsValue_eq_dec : EqDecision JsValue.
Proof. solve_decision. Defined.

(** [!!v] in JavaScript: [undefined], [null], [false], [0] and the empty
    string are falsy. *)
Definition truthy (v : JsValue) : bool :=
  match v with
  | JUndefined | JNull => false
  | JBool b => b
  | JNumber n => negb (n =? 0)%Z
  | JString s => negb (bool_decide (s = ""))
  end.

Definition falsy (v : JsValue) : bool := negb (truthy v).

(** [a || b] *)
Definition js_or (a b : JsValue) : JsValue := if truthy a then a else b.

(** [const { k } = req.body]: a property that is not there reads as
    [undefined]. *)
Definition prop (o : gmap string JsValue) (k : string) : JsValue :=
  default JUndefined (o !! k).

(** ** Library functions the routes rely on

    These belong to Node, bson and bcrypt, not to the repository; they are
    taken as parameters.  [ToNumber] is [Number(s)] on a non-empty string
    ([None] for [NaN]); [castObjectId] parses a route parameter into an
    ObjectId; [bcrypt_hash salt data] is [bcrypt.hash(data, 10)] under the
    salt drawn for that call; [enum_accepts_null] says whether the string
    [enum] validator lets [null] through (it differs between Mongoose
    releases). *)

Class Runtime := {
  ToNumber : string → option Z;
  NumberToString : Z → string;
  castObjectId : string → option N;
  bcrypt_hash : N → string → string;
  bcrypt_compare : string → string → bool;
  enum_accepts_null : bool;
  bcrypt_hash_nonempty : ∀ salt data, bcrypt_hash salt data ≠ ""
}.

(** What a request draws from its environment: the ObjectId minted by
    [new Model(...)], the id express-session generates for a new session and
    the bcrypt salt. *)
Record Env := { new_oid : N; new_sid : string; salt : N }.

(** Exceptions a route can meet: Mongoose's CastError, ValidationError and
    duplicate-key error, bcrypt's argument error, and the TypeError of
    reading a property of [undefined]. *)
Inductive Error :=
| CastFailure | ValidationError | DuplicateKey | BcryptArgument | TypeError.

Inductive Completion (A : Type) : Type :=
| Normal (a : A)
| Thrown (e : Error).
Arguments Normal {A} a.
Arguments Thrown {A} e.

(** ** Mongoose: casting, validation and the two models *)

Module Mongoose.

(** Result of casting one path of a document or of an update. *)
Inductive Cast (A : Type) : Type :=
| Unset                (* the value was [undefined] *)
| Null
| Value (a : A)
| Invalid.             (* CastError *)
Arguments Unset {A}.
Arguments Null {A}.
Arguments Value {A} a.
Arguments Invalid {A}.

Section Casting.
Context `{Runtime}.

(** [castString]: scalars are cast with [toString()]. *)
Definition castString (v : JsValue) : Cast string :=
  match v with
  | JUndefined => Unset
  | JNull => Null
  | JBool b => Value (if b then "true" else "false")
  | JNumber n => Value (NumberToString n)
  | JString s => Value s
  end.

(** [castNumber]: the empty string casts to [null], other strings and
    booleans go through [Number(val)], and [NaN] is a CastError. *)
Definition castNumber (v : JsValue) : Cast Z :=
  match v with
  | JUndefined => Unset
  | JNull => Null
  | JBool b => Value (if b then 1 else 0)%Z
  | JNumber n => Value n
  | JString s =>
      if bool_decide (s = "") then Null
      else match ToNumber s with
           | Some n => Value n
           | None => Invalid
           end
  end.
End Casting.

(** [required: true].  A String path also rejects the empty string; a
    Number path accepts any number, zero included. *)
Definition nonempty (s : string) : bool := negb (bool_decide (s = "")).

Definition requiredString (c : Cast string) : option string :=
  match c with
  | Value s => if nonempty s then Some s else None
  | _ => None
  end.

Definition requiredNumber (c : Cast Z) : option Z :=
  match c with
  | Value n => Some n
  | _ => None
  end.

(** An update validator runs only on the paths the update sets. *)
Definition updateValidString (c : Cast string) : bool :=
  match c with
  | Unset => true
  | Value s => nonempty s
  | Null | Invalid => false
  end.

Definition updateValidNumber (c : Cast Z) : bool :=
  match c with
  | Unset | Value _ => true
  | Null | Invalid => false
  end.

Definition isInvalid {A} (c : Cast A) : bool :=
  match c with Invalid => true | _ => false end.

(** [$set] of one path: keys whose value is [undefined] are removed from
    the update (Mongoose 6 and later), [null] is written as [null]. *)
Definition setPath {A} (c : Cast A) (old : option A) : option A :=
  match c with
  | Unset | Invalid => old
  | Null => None
  | Value a => Some a
  end.

End Mongoose.
Import Mongoose.

(** *** busSchema and the Bus model

    A stored path holds [None] for [null]. *)
Module Bus.
Record t := mk {
  busNumber : option string;
  seats : option Z;
  route : option string;
  departurePoint : option string;
  destinationPoint : option string;
  departureTime : option string
}.

#[global] Instance bus_eq_dec : EqDecision t.
Proof. solve_decision. Defined.

(** The six paths after casting, for [new Bus({...})] and for an update
    document alike. *)
Record Paths := mkPaths {
  p_busNumber : Cast string;
  p_seats : Cast Z;
  p_route : Cast string;
  p_departurePoint : Cast string;
  p_destinationPoint : Cast string;
  p_departureTime : Cast string
}.

(** The object literal
    [{ busNumber, seats, route, departurePoint, destinationPoint, departureTime }]. *)
Record Fields := mkFields {
  f_busNumber : JsValue;
  f_seats : JsValue;
  f_route : JsValue;
  f_departurePoint : JsValue;
  f_destinationPoint : JsValue;
  f_departureTime : JsValue
}.

(** [const { busNumber, ..., departureTime } = req.body] *)
Definition destructure (body : gmap string JsValue) : Fields :=
  {| f_busNumber := prop body "busNumber";
     f_seats := prop body "seats";
     f_route := prop body "route";
     f_departurePoint := prop body "departurePoint";
     f_destinationPoint := prop body "destinationPoint";
     f_departureTime := prop body "departureTime" |}.

Section Model.
Context `{Runtime}.

Definition cast (f : Fields) : Paths :=
  {| p_busNumber := castString (f_busNumber f);
     p_seats := castNumber (f_seats f);
     p_route := castString (f_route f);
     p_departurePoint := castString (f_departurePoint f);
     p_destinationPoint := castString (f_destinationPoint f);
     p_departureTime := castString (f_departureTime f) |}.

(** Document validation on [save()]: every path is [required]. *)
Definition validate (p : Paths) : option t :=
  busNumber ← requiredString (p_busNumber p);
  seats ← requiredNumber (p_seats p);
  route ← requiredString (p_route p);
  departurePoint ← requiredString (p_departurePoint p);
  destinationPoint ← requiredString (p_destinationPoint p);
  departureTime ← requiredString (p_departureTime p);
  Some (mk (Some busNumber) (Some seats) (Some route) (Some departurePoint)
           (Some destinationPoint) (Some departureTime)).

(** [new Bus(fields).save()] with the ObjectId [id] minted for it. *)
Definition save (id : N) (f : Fields) (coll : gmap N t)
  : Completion (gmap N t * (N * t)) :=
  match validate (cast f) with
  | None => Thrown ValidationError
  | Some doc =>
      match coll !! id with
      | Some _ => Thrown DuplicateKey
      | None => Normal (<[id := doc]> coll, (id, doc))
      end
  end.

(** [Bus.find()] *)
Definition find (coll : gmap N t) : list (N * t) := map_to_list coll.

(** [Bus.findByIdAndDelete(id)] *)
Definition findByIdAndDelete (id : string) (coll : gmap N t)
  : Completion (gmap N t * option (N * t)) :=
  match castObjectId id with
  | None => Thrown CastFailure
  | Some i =>
      match coll !! i with
      | None => Normal (coll, None)
      | Some doc => Normal (delete i coll, Some (i, doc))
      end
  end.

(** Casting an update: a CastError on any path rejects the whole update. *)
Definition castFails (p : Paths) : bool :=
  isInvalid (p_busNumber p) || isInvalid (p_seats p) || isInvalid (p_route p)
  || isInvalid (p_departurePoint p) || isInvalid (p_destinationPoint p)
  || isInvalid (p_departureTime p).

(** The update validators ([runValidators: true]): [required] on each path
    the update sets. *)
Definition updateValid (p : Paths) : bool :=
  updateValidString (p_busNumber p) && updateValidNumber (p_seats p)
  && updateValidString (p_route p) && updateValidString (p_departurePoint p)
  && updateValidString (p_destinationPoint p)
  && updateValidString (p_departureTime p).

(** The [$set] the cast update amounts to. *)
Definition applyUpdate (p : Paths) (doc : t) : t :=
  {| busNumber := setPath (p_busNumber p) (busNumber doc);
     seats := setPath (p_seats p) (seats doc);
     route := setPath (p_route p) (route doc);
     departurePoint := setPath (p_departurePoint p) (departurePoint doc);
     destinationPoint := setPath (p_destinationPoint p) (destinationPoint doc);
     departureTime := setPath (p_departureTime p) (departureTime doc) |}.

(** [Bus.findByIdAndUpdate(id, fields, { new: true, runValidators })]:
    the filter and the update are cast, and the update validators run,
    before the collection is touched. *)
Definition findByIdAndUpdate (id : string) (f : Fields) (runValidators : bool)
    (coll : gmap N t) : Completion (gmap N t * option (N * t)) :=
  match castObjectId id with
  | None => Thrown CastFailure
  | Some i =>
      let p := cast f in
      if castFails p then Thrown CastFailure
      else if runValidators && negb (updateValid p) then Thrown ValidationError
      else match coll !! i with
           | None => Normal (coll, None)
           | Some doc =>
               let doc' := applyUpdate p doc in
               Normal (<[i := doc']> coll, Some (i, doc'))
           end
  end.
End Model.
End Bus.

(** *** userSchema and the User model *)
Module User.
Record t := mk {
  username : string;
  password : string;
  role : option string
}.

#[global] Instance user_eq_dec : EqDecision t.
Proof. solve_decision. Defined.

Definition roles : list string := ["user"; "admin"].

Section Model.
Context `{Runtime}.

(** [role: { type: String, enum: ['user', 'admin'], default: 'user' }] *)
Definition castRole (v : JsValue) : Cast string :=
  match castString v with
  | Unset => Value "user"
  | c => c
  end.

(** The [enum] validator on the cast role; the stored role is [None] for
    [null].  [castRole] never leaves the path unset. *)
Definition validRole (c : Cast string) : option (option string) :=
  match c with
  | Value r => if bool_decide (r ∈ roles) then Some (Some r) else None
  | Null => if enum_accepts_null then Some None else None
  | Unset => Some None
  | Invalid => None
  end.

(** Document validation on [save()]: [username] and [password] are
    [required]. *)
Definition validate (username password role : JsValue) : option t :=
  u ← requiredString (castString username);
  p ← requiredString (castString password);
  r ← validRole (castRole role);
  Some (mk u p r).

Definition byUsername (s : string) (d : N * t) : Prop := username d.2 = s.

#[global] Instance byUsername_dec s d : Decision (byUsername s d).
Proof. unfold byUsername. apply _. Defined.

(** [User.findOne({ username })].  Every stored user has a username, so
    an [undefined] or [null] filter value matches nobody. *)
Definition findOne (username : JsValue) (coll : gmap N t)
  : Completion (option (N * t)) :=
  match castString username with
  | Invalid => Thrown CastFailure
  | Unset | Null => Normal None
  | Value s => Normal (snd <$> list_find (byUsername s) (map_to_list coll))
  end.

(** [new User({ username, password, role }).save()]; [username] carries a
    unique index. *)
Definition save (id : N) (username password role : JsValue) (coll : gmap N t)
  : Completion (gmap N t * (N * t)) :=
  match validate username password role with
  | None => Thrown ValidationError
  | Some doc =>
      match coll !! id, list_find (byUsername (User.username doc)) (map_to_list coll) with
      | None, None => Normal (<[id := doc]> coll, (id, doc))
      | _, _ => Thrown DuplicateKey
      end
  end.
End Model.
End User.

(** ** express-session

    [req.session] holds the two properties the routes assign.  The store is
    the default in-memory one, keyed by session id.  The one-hour expiry of
    a session is not modelled. *)
Module Session.
Record t := mk {
  userId : option N;
  role : option string
}.

#[global] Instance session_eq_dec : EqDecision t.
Proof. solve_decision. Defined.

(** [!!req.session.role]: the role is a string, or [None] for a missing
    or [null] one. *)
Definition truthyRole (r : option string) : bool :=
  match r with
  | Some s => nonempty s
  | None => false
  end.

(** A session generated for a request that brought none. *)
Definition fresh : t := mk None None.
End Session.

(** ** Server state and responses *)

Record Server := mkServer {
  users : gmap N User.t;
  buses : gmap N Bus.t;
  sessions : gmap string Session.t
}.

Inductive Json : Type :=
| Message (message : string)
| MessageUser (message : string) (role : option string) (userId : N)
| MessageBus (message : string) (bus : N * Bus.t)
| BusArray (l : list (N * Bus.t))
| NoRoute           (* the framework's answer when no route matches *)
| ErrorPage.        (* the framework's answer to an uncaught exception *)

Record Response := respond { status : nat; json : Json }.

Inductive Route : Type :=
| PostRegister
| PostLogin
| PostLogout
| GetBuses
| PostBuses
| PutBus (id : string)
| DeleteBus (id : string).

Record Request := mkRequest {
  cookie : option string;
  route : Route;
  body : gmap string JsValue
}.

Record Reply := mkReply {
  response : Response;
  set_cookie : option string
}.

(** ** Route handlers as a state and exception monad

    A handler runs over the server state and the session attached to the
    request ([None] once [req.session.destroy] has run); an exception keeps
    the state reached when it was thrown. *)

Record Ctx := mkCtx {
  server : Server;
  sessionID : string;
  session : option Session.t
}.

Definition Handler (A : Type) : Type := Ctx → Ctx * Completion A.

#[global] Instance Handler_ret : MRet Handler := λ A a ctx, (ctx, Normal a).

#[global] Instance Handler_bind : MBind Handler := λ A B k m ctx,
  match m ctx with
  | (ctx', Normal a) => k a ctx'
  | (ctx', Thrown e) => (ctx', Thrown e)
  end.

Definition throw {A} (e : Error) : Handler A := λ ctx, (ctx, Thrown e).

(** [try { body } catch (err) { handler }] *)
Definition try_catch {A} (m : Handler A) (h : Error → Handler A) : Handler A :=
  λ ctx,
    match m ctx with
    | (ctx', Normal a) => (ctx', Normal a)
    | (ctx', Thrown e) => h e ctx'
    end.

(** A model call on the [users] collection. *)
Definition onUsers {A} (op : gmap N User.t → Completion (gmap N User.t * A))
  : Handler A := λ ctx,
  match op (users (server ctx)) with
  | Normal (coll, a) =>
      (mkCtx (mkServer coll (buses (server ctx)) (sessions (server ctx)))
             (sessionID ctx) (session ctx), Normal a)
  | Thrown e => (ctx, Thrown e)
  end.

(** A model call on the [buses] collection. *)
Definition onBuses {A} (op : gmap N Bus.t → Completion (gmap N Bus.t * A))
  : Handler A := λ ctx,
  match op (buses (server ctx)) with
  | Normal (coll, a) =>
      (mkCtx (mkServer (users (server ctx)) coll (sessions (server ctx)))
             (sessionID ctx) (session ctx), Normal a)
  | Thrown e => (ctx, Thrown e)
  end.

(** Reading [req.session.userId] or [req.session.role]; [req.session] is
    [undefined] after [destroy]. *)
Definition reqSession : Handler Session.t := λ ctx,
  match session ctx with
  | Some s => (ctx, Normal s)
  | None => (ctx, Thrown TypeError)
  end.

(** [req.session.userId = id] *)
Definition setUserId (id : N) : Handler unit := λ ctx,
  match session ctx with
  | Some s =>
      (mkCtx (server ctx) (sessionID ctx) (Some (Session.mk (Some id) (Session.role s))),
       Normal ())
  | None => (ctx, Thrown TypeError)
  end.

(** [req.session.role = r] *)
Definition setRole (r : option string) : Handler unit := λ ctx,
  match session ctx with
  | Some s =>
      (mkCtx (server ctx) (sessionID ctx) (Some (Session.mk (Session.userId s) r)),
       Normal ())
  | None => (ctx, Thrown TypeError)
  end.

(** [req.session.destroy(callback)] on the in-memory store: the entry is
    deleted, [req.session] is unset and the callback receives no error. *)
Definition destroy : Handler (option Error) := λ ctx,
  (mkCtx (mkServer (users (server ctx)) (buses (server ctx))
                   (delete (sessionID ctx) (sessions (server ctx))))
         (sessionID ctx) None,
   Normal None).

Section Bcrypt.
Context `{Runtime}.

(** [bcrypt.hash(data, 10)] rejects when [data] is not a string. *)
Definition bcryptHash (salt : N) (data : JsValue) : Handler string :=
  match data with
  | JString s => mret (bcrypt_hash salt s)
  | _ => throw BcryptArgument
  end.

(** [bcrypt.compare(data, encrypted)] rejects when [data] is not a string. *)
Definition bcryptCompare (data : JsValue) (encrypted : string) : Handler bool :=
  match data with
  | JString s => mret (bcrypt_compare s encrypted)
  | _ => throw BcryptArgument
  end.
End Bcrypt.

(** ** The application: session middleware around a router *)

Definition loadSession (store : gmap string Session.t) (cookie : option string)
    (env : Env) : string * Session.t :=
  match cookie with
  | Some sid =>
      match store !! sid with
      | Some s => (sid, s)
      | None => (new_sid env, Session.fresh)
      end
  | None => (new_sid env, Session.fresh)
  end.

(** End of the request ([resave: false], [saveUninitialized: false]): the
    session is written back, and its cookie set, only when the handler
    changed it. *)
Definition saveSession (loaded : Session.t) (ctx : Ctx) : Server * option string :=
  match session ctx with
  | None => (server ctx, None)
  | Some s =>
      if bool_decide (s = loaded) then (server ctx, None)
      else (mkServer (users (server ctx)) (buses (server ctx))
                     (<[sessionID ctx := s]> (sessions (server ctx))),
            Some (sessionID ctx))
  end.

Definition serve (router : Env → Request → Handler Response)
    (env : Env) (srv : Server) (req : Request) : Server * Reply :=
  let '(sid, loaded) := loadSession (sessions srv) (cookie req) env in
  let '(ctx, c) := router env req (mkCtx srv sid (Some loaded)) in
  let '(srv', set) := saveSession loaded ctx in
  (srv', mkReply (match c with
                  | Normal r => r
                  | Thrown _ => respond 500 ErrorPage
                  end) set).

(** ** src/unnamed/part_001 *)
Module Part001.
Section Routes.
Context `{Runtime}.

Definition authRequired (next : Handler Response) : Handler Response :=
  s ← reqSession;
  if negb (bool_decide (is_Some (Session.userId s)))
  then mret (respond 401 (Message "Authentication required"))
  else next.

Definition adminRequired (next : Handler Response) : Handler Response :=
  s ← reqSession;
  if bool_decide (Session.role s ≠ Some "admin")
  then mret (respond 403 (Message "Admin access required"))
  else next.

(** [app.post('/register', ...)] *)
Definition register (env : Env) (body : gmap string JsValue) : Handler Response :=
  try_catch
    (let username := prop body "username" in
     let password := prop body "password" in
     let role := prop body "role" in
     existingUser ← onUsers (λ coll,
       match User.findOne username coll with
       | Normal u => Normal (coll, u)
       | Thrown e => Thrown e
       end);
     match existingUser with
     | Some _ => mret (respond 400 (Message "User already exists"))
     | None =>
         hashedPassword ← bcryptHash (salt env) password;
         newUser ← onUsers (User.save (new_oid env) username (JString hashedPassword) role);
         setUserId newUser.1;;
         setRole (User.role newUser.2);;
         mret (respond 201 (MessageUser "User registered successfully"
                              (User.role newUser.2) newUser.1))
     end)
    (λ err, mret (respond 500 (Message "Error registering user"))).

(** [app.post('/login', ...)] *)
Definition login (body : gmap string JsValue) : Handler Response :=
  try_catch
    (let username := prop body "username" in
     let password := prop body "password" in
     user ← onUsers (λ coll,
       match User.findOne username coll with
       | Normal u => Normal (coll, u)
       | Thrown e => Thrown e
       end);
     match user with
     | None => mret (respond 401 (Message "Invalid username or password"))
     | Some u =>
         matches ← bcryptCompare password (User.password u.2);
         if negb matches
         then mret (respond 401 (Message "Invalid username or password"))
         else
           setUserId u.1;;
           setRole (User.role u.2);;
           mret (respond 200 (MessageUser "Login successful" (User.role u.2) u.1))
     end)
    (λ err, mret (respond 500 (Message "Error logging in"))).

(** [app.get('/api/buses', ...)] *)
Definition get_buses : Handler Response :=
  try_catch
    (buses ← onBuses (λ coll, Normal (coll, Bus.find coll));
     mret (respond 200 (BusArray buses)))
    (λ err, mret (respond 500 (Message "Error fetching buses"))).

(** [app.post('/api/buses', authRequired, adminRequired, ...)] *)
Definition post_buses (env : Env) (body : gmap string JsValue) : Handler Response :=
  authRequired (adminRequired (
    try_catch
      (let fields := Bus.destructure body in
       newBus ← onBuses (Bus.save (new_oid env) fields);
       mret (respond 201 (MessageBus "Bus added successfully" newBus)))
      (λ err, mret (respond 500 (Message "Error adding bus"))))).

(** [app.put('/api/buses/:id', authRequired, adminRequired, ...)] *)
Definition put_bus (id : string) (body : gmap string JsValue) : Handler Response :=
  authRequired (adminRequired (
    try_catch
      (let fields := Bus.destructure body in
       bus ← onBuses (Bus.findByIdAndUpdate id fields false);
       match bus with
       | None => mret (respond 404 (Message "Bus not found"))
       | Some bus => mret (respond 200 (MessageBus "Bus updated successfully" bus))
       end)
      (λ err, mret (respond 500 (Message "Error updating bus"))))).

(** [app.delete('/api/buses/:id', authRequired, adminRequired, ...)] *)
Definition delete_bus (id : string) : Handler Response :=
  authRequired (adminRequired (
    try_catch
      (bus ← onBuses (Bus.findByIdAndDelete id);
       match bus with
       | None => mret (respond 404 (Message "Bus not found"))
       | Some _ => mret (respond 200 (Message "Bus deleted successfully"))
       end)
      (λ err, mret (respond 500 (Message "Error deleting bus"))))).

(** [app.post('/logout', ...)] *)
Definition logout : Handler Response :=
  err ← destroy;
  match err with
  | Some _ => mret (respond 500 (Message "Error logging out"))
  | None => mret (respond 200 (Message "Logout successful"))
  end.

Definition router (env : Env) (req : Request) : Handler Response :=
  match route req with
  | PostRegister => register env (body req)
  | PostLogin => login (body req)
  | PostLogout => logout
  | GetBuses => get_buses
  | PostBuses => post_buses env (body req)
  | PutBus id => put_bus id (body req)
  | DeleteBus id => delete_bus id
  end.

Definition app : Env → Server → Request → Server * Reply := serve router.
End Routes.
End Part001.

(** ** src/server.js *)
Module ServerJs.
Section Routes.
Context `{Runtime}.

Definition authRequired (next : Handler Response) : Handler Response :=
  s ← reqSession;
  if negb (bool_decide (is_Some (Session.userId s)))
  then mret (respond 401 (Message "Autentimine on vajalik"))
  else next.

(** [!req.session.role || req.session.role !== 'admin'] *)
Definition adminRequired (next : Handler Response) : Handler Response :=
  s ← reqSession;
  if negb (Session.truthyRole (Session.role s))
     || bool_decide (Session.role s ≠ Some "admin")
  then mret (respond 403 (Message "Juurdepääs keelatud. Vajalik administraatori roll."))
  else next.

(** [app.post('/register', ...)] *)
Definition register (env : Env) (body : gmap string JsValue) : Handler Response :=
  try_catch
    (let username := prop body "username" in
     let password := prop body "password" in
     let role := prop body "role" in
     existingUser ← onUsers (λ coll,
       match User.findOne username coll with
       | Normal u => Normal (coll, u)
       | Thrown e => Thrown e
       end);
     match existingUser with
     | Some _ => mret (respond 400 (Message "Kasutaja on juba olemas"))
     | None =>
         hashedPassword ← bcryptHash (salt env) password;
         newUser ← onUsers (User.save (new_oid env) username (JString hashedPassword)
                              (js_or role (JString "user")));
         setUserId newUser.1;;
         setRole (User.role newUser.2);;
         mret (respond 201 (MessageUser "Kasutaja loodud" (User.role newUser.2) newUser.1))
     end)
    (λ err, mret (respond 500 (Message "Viga registreerimisel"))).

(** [app.post('/login', ...)] *)
Definition login (body : gmap string JsValue) : Handler Response :=
  try_catch
    (let username := prop body "username" in
     let password := prop body "password" in
     user ← onUsers (λ coll,
       match User.findOne username coll with
       | Normal u => Normal (coll, u)
       | Thrown e => Thrown e
       end);
     match user with
     | None => mret (respond 401 (Message "Vale kasutajanimi või parool"))
     | Some u =>
         matches ← bcryptCompare password (User.password u.2);
         if negb matches
         then mret (respond 401 (Message "Vale kasutajanimi või parool"))
         else
           setUserId u.1;;
           setRole (User.role u.2);;
           mret (respond 200 (MessageUser "Sisselogimine õnnestus" (User.role u.2) u.1))
     end)
    (λ err, mret (respond 500 (Message "Viga sisselogimisel"))).

(** [app.get('/api/buses', ...)] *)
Definition get_buses : Handler Response :=
  try_catch
    (buses ← onBuses (λ coll, Normal (coll, Bus.find coll));
     mret (respond 200 (BusArray buses)))
    (λ err, mret (respond 500 (Message "Viga busside hankimisel"))).

(** [app.delete('/api/buses/:id', authRequired, adminRequired, ...)] *)
Definition delete_bus (id : string) : Handler Response :=
  authRequired (adminRequired (
    try_catch
      (bus ← onBuses (Bus.findByIdAndDelete id);
       match bus with
       | None => mret (respond 404 (Message "Bussi ei leitud"))
       | Some _ => mret (respond 200 (Message "Buss kustutatud"))
       end)
      (λ err, mret (respond 500 (Message "Viga bussi kustutamisel"))))).

(** [app.put('/api/buses/:id', authRequired, adminRequired, ...)] *)
Definition put_bus (id : string) (body : gmap string JsValue) : Handler Response :=
  authRequired (adminRequired (
    try_catch
      (let fields := Bus.destructure body in
       bus ← onBuses (Bus.findByIdAndUpdate id fields true);
       match bus with
       | None => mret (respond 404 (Message "Buss ei leitud"))
       | Some bus => mret (respond 200 (MessageBus "Buss on uuendatud" bus))
       end)
      (λ err, mret (respond 500 (Message "Serveri viga bussi muutmisel"))))).

(** The presence test of the create route:
    [!busNumber || !seats || !route || !departurePoint || !destinationPoint || !departureTime] *)
Definition someFalsy (f : Bus.Fields) : bool :=
  falsy (Bus.f_busNumber f) || falsy (Bus.f_seats f) || falsy (Bus.f_route f)
  || falsy (Bus.f_departurePoint f) || falsy (Bus.f_destinationPoint f)
  || falsy (Bus.f_departureTime f).

(** [app.post('/api/buses', authRequired, adminRequired, ...)] *)
Definition post_buses (env : Env) (body : gmap string JsValue) : Handler Response :=
  authRequired (adminRequired (
    try_catch
      (let fields := Bus.destructure body in
       if someFalsy fields
       then mret (respond 400 (Message "Palun täitke kõik väljad"))
       else
         newBus ← onBuses (Bus.save (new_oid env) fields);
         mret (respond 201 (MessageBus "Buss on edukalt lisatud" newBus)))
      (λ err, mret (respond 500 (Message "Serveri viga bussi lisamisel"))))).

(** This variant declares no [/logout] route. *)
Definition router (env : Env) (req : Request) : Handler Response :=
  match route req with
  | PostRegister => register env (body req)
  | PostLogin => login (body req)
  | PostLogout => mret (respond 404 NoRoute)
  | GetBuses => get_buses
  | PostBuses => post_buses env (body req)
  | PutBus id => put_bus id (body req)
  | DeleteBus id => delete_bus id
  end.

Definition app : Env → Server → Request → Server * Reply := serve router.
End Routes.
End ServerJs.

(** ** Either variant, and sequences of requests *)

Inductive Variant := ServerJsFile | Part001File.

Section Application.
Context `{Runtime}.

Definition app (v : Variant) : Env → Server → Request → Server * Reply :=
  match v with
  | ServerJsFile => ServerJs.app
  | Part001File => Part001.app
  end.

(** Requests served one after the other, each with what it draws from
    its environment. *)
Fixpoint run (v : Variant) (srv : Server) (trace : list (Env * Request)) : Server :=
  match trace with
  | [] => srv
  | (env, req) :: rest => run v (app v env srv req).1 rest
  end.

(** The three routes behind [authRequired, adminRequired]. *)
Definition mutating (r : Route) : bool :=
  match r with
  | PostBuses | PutBus _ | DeleteBus _ => true
  | _ => false
  end.
End Application.

(** An administrator's session, as the two guards see it. *)
Definition isAdmin (s : Session.t) : Prop :=
  is_Some (Session.userId s) ∧ Session.role s = Some "admin".

(** The server with its bus collection replaced. *)
Definition withBuses (srv : Server) (coll : gmap N Bus.t) : Server :=
  mkServer (users srv) coll (sessions srv).

(** The names of the six paths of [busSchema]. *)
Definition busPaths : list string :=
  ["busNumber"; "seats"; "route"; "departurePoint"; "destinationPoint";
   "departureTime"].

(** A handler that leaves the session id alone and adds no entry to the
    session store. *)
Definition keepsStore {A} (m : Handler A) : Prop :=
  ∀ ctx, sessionID (m ctx).1 = sessionID ctx
         ∧ ∀ sid, sessions (server ctx) !! sid = None →
                  sessions (server (m ctx).1) !! sid = None.

(** ** A concrete runtime for the worked examples

    Decimal integers for [Number(s)] and [toString()], 24 hexadecimal digits
    for an ObjectId, and a stand-in for bcrypt that prefixes the data. *)
Module Sample.
Definition hexDigit (c : Ascii.ascii) : option N :=
  let n := Ascii.N_of_ascii c in
  if ((48 <=? n) && (n <=? 57))%N then Some (n - 48)%N
  else if ((97 <=? n) && (n <=? 102))%N then Some (n - 87)%N
  else if ((65 <=? n) && (n <=? 70))%N then Some (n - 55)%N
  else None.

Fixpoint hexValue (acc : N) (s : string) : option N :=
  match s with
  | EmptyString => Some acc
  | String c rest =>
      match hexDigit c with
      | Some d => hexValue (16 * acc + d)%N rest
      | None => None
      end
  end.

Definition objectIdOfString (s : string) : option N :=
  if bool_decide (String.length s = 24%nat) then hexValue 0%N s else None.

Definition toNumber (s : string) : option Z :=
  Z.of_int <$> DecimalString.NilEmpty.int_of_string s.

Definition numberToString (n : Z) : string :=
  DecimalString.NilZero.string_of_int (Z.to_int n).

Definition hash (salt : N) (data : string) : string := String "$" data.

Definition compare (data encrypted : string) : bool :=
  bool_decide (encrypted = String "$" data).

#[global] Instance runtime : Runtime := {|
  ToNumber := toNumber;
  NumberToString := numberToString;
  castObjectId := objectIdOfString;
  bcrypt_hash := hash;
  bcrypt_compare := compare;
  enum_accepts_null := true;
  bcrypt_hash_nonempty := λ salt data, ltac:(discriminate)
|}.

Definition env0 : Env := {| new_oid := 1; new_sid := "s1"; salt := 7 |}.
Definition env1 : Env := {| new_oid := 2; new_sid := "s2"; salt := 8 |}.

Definition empty : Server := mkServer ∅ ∅ ∅.

(** A store with one admin session and one user session. *)
Definition adminSession : Session.t := Session.mk (Some 10%N) (Some "admin").
Definition userSession : Session.t := Session.mk (Some 11%N) (Some "user").
Definition withSessions : Server :=
  mkServer ∅ ∅ (<["adm" := adminSession]> (<["usr" := userSession]> ∅)).

Definition completeBus : gmap string JsValue :=
  <["busNumber" := JString "12A"]> (<["seats" := JNumber 40]> (<["route" := JString "R1"]>
  (<["departurePoint" := JString "A"]> (<["destinationPoint" := JString "B"]>
  (<["departureTime" := JString "08:00"]> ∅))))).

Definition storedBus : Bus.t :=
  Bus.mk (Some "12A") (Some 40%Z) (Some "R1") (Some "A") (Some "B") (Some "08:00").

Definition withBus : Server :=
  mkServer ∅ (<[1%N := storedBus]> ∅) (sessions withSessions).

(** Registration payloads. *)
Definition bobBody : gmap string JsValue :=
  <["username" := JString "bob"]> (<["password" := JString "pw"]> ∅).

Definition superuserBody : gmap string JsValue :=
  <["role" := JString "superuser"]> bobBody.

(** A server on which ["bob"] is registered. *)
Definition bobUser : User.t := User.mk "bob" (hash 7 "pw") (Some "user").
Definition withBob : Server := mkServer (<[1%N := bobUser]> ∅) ∅ ∅.

Definition loginBody (username password : string) : gmap string JsValue :=
  <["username" := JString username]> (<["password" := JString password]> ∅).

Definition id1 : string := "000000000000000000000001".
Definition id2 : string := "000000000000000000000002".
End Sample.

(** ** Frames and invariants of the request handlers *)

(** A handler whose every run relates the context it starts from to the
    context it leaves, returning or throwing. *)
Definition frames {A} (R : relation Ctx) (m : Handler A) : Prop :=
  ∀ ctx, R ctx (m ctx).1.

(** A handler that answers within [P] whenever it returns. *)
Definition answers (P : Response → Prop) (m : Handler Response) : Prop :=
  ∀ ctx, match (m ctx).2 with
         | Normal r => P r
         | Thrown _ => True
         end.

(** A handler that returns, rather than throws, while [req.session] is
    there. *)
Definition returns {A} (m : Handler A) : Prop :=
  ∀ ctx, is_Some (session ctx) → ∃ a, (m ctx).2 = Normal a.

Definition sameBuses : relation Ctx :=
  λ c c', buses (server c') = buses (server c).

Definition sameUsers : relation Ctx :=
  λ c c', users (server c') = users (server c).

(** The session store and the session id are left alone. *)
Definition sameSessions : relation Ctx :=
  λ c c', sessions (server c') = sessions (server c) ∧ sessionID c' = sessionID c.

(** [req.session] is left as it was, or destroyed. *)
Definition sessionUntouched : relation Ctx :=
  λ c c', session c' = session c ∨ session c' = None.

(** Every stored user is still stored, unchanged. *)
Definition usersKept : relation Ctx :=
  λ c c', ∀ id u, users (server c) !! id = Some u → users (server c') !! id = Some u.

(** No two stored users share a username. *)
Definition uniqueUsernames (coll : gmap N User.t) : Prop :=
  ∀ i j u1 u2, coll !! i = Some u1 → coll !! j = Some u2 →
               User.username u1 = User.username u2 → i = j.

Definition keepsUnique : relation Ctx :=
  λ c c', uniqueUsernames (users (server c)) → uniqueUsernames (users (server c')).

(** A stored bus that satisfies [busSchema]: the five strings are there and
    non-empty, and [seats] is a number. *)
Definition populatedString (o : option string) : Prop := ∃ s, o = Some s ∧ s ≠ "".

Definition populated (doc : Bus.t) : Prop :=
  populatedString (Bus.busNumber doc) ∧ is_Some (Bus.seats doc)
  ∧ populatedString (Bus.route doc) ∧ populatedString (Bus.departurePoint doc)
  ∧ populatedString (Bus.destinationPoint doc)
  ∧ populatedString (Bus.departureTime doc).

Definition allPopulated (coll : gmap N Bus.t) : Prop :=
  ∀ i doc, coll !! i = Some doc → populated doc.

Definition keepsPopulated : relation Ctx :=
  λ c c', allPopulated (buses (server c)) → allPopulated (buses (server c')).

(** The status codes the routes write. *)
Definition statuses : list nat := [200; 201; 400; 401; 403; 404; 500].

Definition routeAnswer (r : Response) : Prop :=
  status r ∈ statuses ∧ json r ≠ ErrorPage.

(** The router of a variant. *)
Definition router `{Runtime} (v : Variant) : Env → Request → Handler Response :=
  match v with
  | ServerJsFile => ServerJs.router
  | Part001File => Part001.router
  end.

(** The session a request runs with. *)
Definition requestSession (srv : Server) (req : Request) (env : Env) : Session.t :=
  (loadSession (sessions srv) (cookie req) env).2.

(** More inputs for the worked examples. *)
Module Inputs.
Definition adminBody : gmap string JsValue :=
  <["role" := JString "admin"]> Sample.bobBody.

Definition nullSeats : gmap string JsValue := {["seats" := JNull]}.

Definition noPassword : gmap string JsValue := {["username" := JString "bob"]}.

Definition env2 : Env := {| new_oid := 3; new_sid := "s3"; salt := 9 |}.

(** A session that claims the admin role without a user id. *)
Definition roleOnly : Server :=
  mkServer ∅ ∅ {["odd" := Session.mk None (Some "admin")]}.
End Inputs.

(** * Properties *)

(** ** The session middleware and the two guards *)

Section Guards.
Context `{Runtime}.

Lemma loadSession_found store sid s env :
  store !! sid = Some s → loadSession store (Some sid) env = (sid, s).
Proof. intros Hs. unfold loadSession. by rewrite Hs. Qed.

Lemma loadSession_missing store sid env :
  store !! sid = None →
  loadSession store (Some sid) env = (new_sid env, Session.fresh).
Proof. intros Hs. unfold loadSession. by rewrite Hs. Qed.

Lemma loadSession_fresh_or_stored store c env :
  (loadSession store c env).2 = Session.fresh
  ∨ ∃ sid, c = Some sid ∧ store !! sid = Some (loadSession store c env).2
           ∧ (loadSession store c env).1 = sid.
Proof.
  unfold loadSession. destruct c as [sid|]; [|by left].
  destruct (store !! sid) eqn:E; [right; eauto | by left].
Qed.

Lemma saveSession_unchanged srv sid s :
  saveSession s (mkCtx srv sid (Some s)) = (srv, None).
Proof. unfold saveSession; simpl. by case_bool_decide. Qed.

Lemma part001_authRequired_reject next ctx s :
  session ctx = Some s → Session.userId s = None →
  Part001.authRequired next ctx
  = (ctx, Normal (respond 401 (Message "Authentication required"))).
Proof.
  intros Hs Hu. unfold Part001.authRequired, mbind, Handler_bind, reqSession.
  rewrite Hs, Hu. case_bool_decide as Hd; [by destruct Hd | done].
Qed.

Lemma serverjs_authRequired_reject next ctx s :
  session ctx = Some s → Session.userId s = None →
  ServerJs.authRequired next ctx
  = (ctx, Normal (respond 401 (Message "Autentimine on vajalik"))).
Proof.
  intros Hs Hu. unfold ServerJs.authRequired, mbind, Handler_bind, reqSession.
  rewrite Hs, Hu. case_bool_decide as Hd; [by destruct Hd | done].
Qed.

Lemma part001_authRequired_pass next ctx s :
  session ctx = Some s → is_Some (Session.userId s) →
  Part001.authRequired next ctx = next ctx.
Proof.
  intros Hs Hu. unfold Part001.authRequired, mbind, Handler_bind, reqSession.
  rewrite Hs. by case_bool_decide.
Qed.

Lemma serverjs_authRequired_pass next ctx s :
  session ctx = Some s → is_Some (Session.userId s) →
  ServerJs.authRequired next ctx = next ctx.
Proof.
  intros Hs Hu. unfold ServerJs.authRequired, mbind, Handler_bind, reqSession.
  rewrite Hs. by case_bool_decide.
Qed.

Lemma part001_adminRequired_reject next ctx s :
  session ctx = Some s → Session.role s ≠ Some "admin" →
  Part001.adminRequired next ctx
  = (ctx, Normal (respond 403 (Message "Admin access required"))).
Proof.
  intros Hs Hr. unfold Part001.adminRequired, mbind, Handler_bind, reqSession.
  rewrite Hs. by case_bool_decide.
Qed.

Lemma serverjs_adminRequired_reject next ctx s :
  session ctx = Some s → Session.role s ≠ Some "admin" →
  ServerJs.adminRequired next ctx
  = (ctx, Normal (respond 403
       (Message "Juurdepääs keelatud. Vajalik administraatori roll."))).
Proof.
  intros Hs Hr. unfold ServerJs.adminRequired, mbind, Handler_bind, reqSession.
  rewrite Hs. case_bool_decide; [by rewrite orb_true_r | done].
Qed.

Lemma part001_adminRequired_pass next ctx s :
  session ctx = Some s → Session.role s = Some "admin" →
  Part001.adminRequired next ctx = next ctx.
Proof.
  intros Hs Hr. unfold Part001.adminRequired, mbind, Handler_bind, reqSession.
  rewrite Hs. by case_bool_decide.
Qed.

Lemma serverjs_adminRequired_pass next ctx s :
  session ctx = Some s → Session.role s = Some "admin" →
  ServerJs.adminRequired next ctx = next ctx.
Proof.
  intros Hs Hr. unfold ServerJs.adminRequired, mbind, Handler_bind, reqSession.
  rewrite Hs, Hr. simpl. by try case_bool_decide.
Qed.

(** Both guards let an administrator's session through. *)
Lemma part001_admin_gate next ctx s :
  session ctx = Some s → is_Some (Session.userId s) →
  Session.role s = Some "admin" →
  Part001.authRequired (Part001.adminRequired next) ctx = next ctx.
Proof.
  intros. erewrite part001_authRequired_pass by eauto.
  eapply part001_adminRequired_pass; eauto.
Qed.

Lemma serverjs_admin_gate next ctx s :
  session ctx = Some s → is_Some (Session.userId s) →
  Session.role s = Some "admin" →
  ServerJs.authRequired (ServerJs.adminRequired next) ctx = next ctx.
Proof.
  intros. erewrite serverjs_authRequired_pass by eauto.
  eapply serverjs_adminRequired_pass; eauto.
Qed.

(** A mutating route is its handler behind the two guards. *)
Lemma part001_router_guarded env req :
  mutating (route req) = true →
  ∃ h, Part001.router env req = Part001.authRequired (Part001.adminRequired h).
Proof.
  unfold Part001.router. destruct (route req); try discriminate; intros _;
    unfold Part001.post_buses, Part001.put_bus, Part001.delete_bus; eauto.
Qed.

Lemma serverjs_router_guarded env req :
  mutating (route req) = true →
  ∃ h, ServerJs.router env req = ServerJs.authRequired (ServerJs.adminRequired h).
Proof.
  unfold ServerJs.router. destruct (route req); try discriminate; intros _;
    unfold ServerJs.post_buses, ServerJs.put_bus, ServerJs.delete_bus; eauto.
Qed.

(** C4. A request to create, update or delete a bus whose session is
    authenticated ([userId] present) but whose role is not ["admin"], a
    missing role included, is answered 403 (so never 401) in both
    variants, and leaves the server as it was. *)
Theorem non_admin_session_forbidden v env srv req sid s :
  cookie req = Some sid →
  sessions srv !! sid = Some s →
  is_Some (Session.userId s) →
  Session.role s ≠ Some "admin" →
  mutating (route req) = true →
  status (response (app v env srv req).2) = 403
  ∧ (app v env srv req).1 = srv.
Proof.
  intros Hc Hs Hu Hr Hm.
  destruct v; unfold app, ServerJs.app, Part001.app, serve;
    rewrite Hc, (loadSession_found _ _ _ _ Hs).
  - destruct (serverjs_router_guarded env req Hm) as [h ->].
    erewrite serverjs_authRequired_pass by (simpl; eauto).
    erewrite serverjs_adminRequired_reject by (simpl; eauto).
    by rewrite saveSession_unchanged.
  - destruct (part001_router_guarded env req Hm) as [h ->].
    erewrite part001_authRequired_pass by (simpl; eauto).
    erewrite part001_adminRequired_reject by (simpl; eauto).
    by rewrite saveSession_unchanged.
Qed.
End Guards.

(** ** The bus routes under an administrator's session *)

Section BusRoutes.
Context `{Runtime}.

(** A request whose handler answers without touching the session gets
    no cookie, and the server keeps the state the handler left. *)
Lemma serve_session_kept router env srv req sid s srv' r :
  cookie req = Some sid →
  sessions srv !! sid = Some s →
  router env req (mkCtx srv sid (Some s)) = (mkCtx srv' sid (Some s), Normal r) →
  serve router env srv req = (srv', mkReply r None).
Proof.
  intros Hc Hs Hr. unfold serve.
  rewrite Hc, (loadSession_found _ _ _ _ Hs), Hr.
  by rewrite saveSession_unchanged.
Qed.

Lemma withBuses_same srv : withBuses srv (buses srv) = srv.
Proof. by destruct srv. Qed.

Lemma serverjs_post_buses_admin env body srv sid s :
  isAdmin s →
  ServerJs.post_buses env body (mkCtx srv sid (Some s))
  = if ServerJs.someFalsy (Bus.destructure body)
    then (mkCtx srv sid (Some s),
          Normal (respond 400 (Message "Palun täitke kõik väljad")))
    else match Bus.save (new_oid env) (Bus.destructure body) (buses srv) with
         | Normal (coll, bus) =>
             (mkCtx (withBuses srv coll) sid (Some s),
              Normal (respond 201 (MessageBus "Buss on edukalt lisatud" bus)))
         | Thrown _ =>
             (mkCtx srv sid (Some s),
              Normal (respond 500 (Message "Serveri viga bussi lisamisel")))
         end.
Proof.
  intros [Hu Hr]. unfold ServerJs.post_buses.
  erewrite serverjs_admin_gate by (simpl; eauto).
  unfold try_catch, mbind, Handler_bind, onBuses; simpl.
  destruct (ServerJs.someFalsy _); [done|].
  by destruct (Bus.save _ _ _) as [[coll bus]|e].
Qed.

Lemma part001_post_buses_admin env body srv sid s :
  isAdmin s →
  Part001.post_buses env body (mkCtx srv sid (Some s))
  = match Bus.save (new_oid env) (Bus.destructure body) (buses srv) with
    | Normal (coll, bus) =>
        (mkCtx (withBuses srv coll) sid (Some s),
         Normal (respond 201 (MessageBus "Bus added successfully" bus)))
    | Thrown _ =>
        (mkCtx srv sid (Some s), Normal (respond 500 (Message "Error adding bus")))
    end.
Proof.
  intros [Hu Hr]. unfold Part001.post_buses.
  erewrite part001_admin_gate by (simpl; eauto).
  unfold try_catch, mbind, Handler_bind, onBuses; simpl.
  by destruct (Bus.save _ _ _) as [[coll bus]|e].
Qed.

Lemma serverjs_put_bus_admin id body srv sid s :
  isAdmin s →
  ServerJs.put_bus id body (mkCtx srv sid (Some s))
  = match Bus.findByIdAndUpdate id (Bus.destructure body) true (buses srv) with
    | Normal (coll, Some bus) =>
        (mkCtx (withBuses srv coll) sid (Some s),
         Normal (respond 200 (MessageBus "Buss on uuendatud" bus)))
    | Normal (coll, None) =>
        (mkCtx (withBuses srv coll) sid (Some s),
         Normal (respond 404 (Message "Buss ei leitud")))
    | Thrown _ =>
        (mkCtx srv sid (Some s),
         Normal (respond 500 (Message "Serveri viga bussi muutmisel")))
    end.
Proof.
  intros [Hu Hr]. unfold ServerJs.put_bus.
  erewrite serverjs_admin_gate by (simpl; eauto).
  unfold try_catch, mbind, Handler_bind, onBuses; simpl.
  by destruct (Bus.findByIdAndUpdate _ _ _ _) as [[coll [bus|]]|e].
Qed.

Lemma part001_put_bus_admin id body srv sid s :
  isAdmin s →
  Part001.put_bus id body (mkCtx srv sid (Some s))
  = match Bus.findByIdAndUpdate id (Bus.destructure body) false (buses srv) with
    | Normal (coll, Some bus) =>
        (mkCtx (withBuses srv coll) sid (Some s),
         Normal (respond 200 (MessageBus "Bus updated successfully" bus)))
    | Normal (coll, None) =>
        (mkCtx (withBuses srv coll) sid (Some s),
         Normal (respond 404 (Message "Bus not found")))
    | Thrown _ =>
        (mkCtx srv sid (Some s), Normal (respond 500 (Message "Error updating bus")))
    end.
Proof.
  intros [Hu Hr]. unfold Part001.put_bus.
  erewrite part001_admin_gate by (simpl; eauto).
  unfold try_catch, mbind, Handler_bind, onBuses; simpl.
  by destruct (Bus.findByIdAndUpdate _ _ _ _) as [[coll [bus|]]|e].
Qed.

Lemma serverjs_delete_bus_admin id srv sid s :
  isAdmin s →
  ServerJs.delete_bus id (mkCtx srv sid (Some s))
  = match Bus.findByIdAndDelete id (buses srv) with
    | Normal (coll, Some _) =>
        (mkCtx (withBuses srv coll) sid (Some s),
         Normal (respond 200 (Message "Buss kustutatud")))
    | Normal (coll, None) =>
        (mkCtx (withBuses srv coll) sid (Some s),
         Normal (respond 404 (Message "Bussi ei leitud")))
    | Thrown _ =>
        (mkCtx srv sid (Some s),
         Normal (respond 500 (Message "Viga bussi kustutamisel")))
    end.
Proof.
  intros [Hu Hr]. unfold ServerJs.delete_bus.
  erewrite serverjs_admin_gate by (simpl; eauto).
  unfold try_catch, mbind, Handler_bind, onBuses; simpl.
  by destruct (Bus.findByIdAndDelete _ _) as [[coll [bus|]]|e].
Qed.

Lemma part001_delete_bus_admin id srv sid s :
  isAdmin s →
  Part001.delete_bus id (mkCtx srv sid (Some s))
  = match Bus.findByIdAndDelete id (buses srv) with
    | Normal (coll, Some _) =>
        (mkCtx (withBuses srv coll) sid (Some s),
         Normal (respond 200 (Message "Bus deleted successfully")))
    | Normal (coll, None) =>
        (mkCtx (withBuses srv coll) sid (Some s),
         Normal (respond 404 (Message "Bus not found")))
    | Thrown _ =>
        (mkCtx srv sid (Some s), Normal (respond 500 (Message "Error deleting bus")))
    end.
Proof.
  intros [Hu Hr]. unfold Part001.delete_bus.
  erewrite part001_admin_gate by (simpl; eauto).
  unfold try_catch, mbind, Handler_bind, onBuses; simpl.
  by destruct (Bus.findByIdAndDelete _ _) as [[coll [bus|]]|e].
Qed.

(** *** Validation of a new document *)

Lemma requiredString_Some c s :
  requiredString c = Some s → c = Value s ∧ s ≠ "".
Proof.
  destruct c as [| |a|]; simpl; try discriminate.
  unfold nonempty. case_bool_decide; simpl; [discriminate|].
  intros [= ->]. done.
Qed.

Lemma requiredNumber_Some c n : requiredNumber c = Some n → c = Value n.
Proof. destruct c; simpl; try discriminate. by intros [= ->]. Qed.

Lemma castString_undefined : castString JUndefined = Unset.
Proof. done. Qed.

Lemma castNumber_undefined : castNumber JUndefined = Unset.
Proof. done. Qed.

(** A valid document carries each of the six paths, cast to its declared
    type. *)
Lemma validate_Some f doc :
  Bus.validate (Bus.cast f) = Some doc →
  ∃ b n r dp ds dt,
    castString (Bus.f_busNumber f) = Value b ∧ castNumber (Bus.f_seats f) = Value n
    ∧ castString (Bus.f_route f) = Value r
    ∧ castString (Bus.f_departurePoint f) = Value dp
    ∧ castString (Bus.f_destinationPoint f) = Value ds
    ∧ castString (Bus.f_departureTime f) = Value dt
    ∧ doc = Bus.mk (Some b) (Some n) (Some r) (Some dp) (Some ds) (Some dt).
Proof.
  unfold Bus.validate, Bus.cast; simpl. intros Hv.
  destruct (requiredString (castString (Bus.f_busNumber f))) as [b|] eqn:E1;
    [|done]; simpl in Hv.
  destruct (requiredNumber (castNumber (Bus.f_seats f))) as [n|] eqn:E2;
    [|done]; simpl in Hv.
  destruct (requiredString (castString (Bus.f_route f))) as [r|] eqn:E3;
    [|done]; simpl in Hv.
  destruct (requiredString (castString (Bus.f_departurePoint f))) as [dp|] eqn:E4;
    [|done]; simpl in Hv.
  destruct (requiredString (castString (Bus.f_destinationPoint f))) as [ds|] eqn:E5;
    [|done]; simpl in Hv.
  destruct (requiredString (castString (Bus.f_departureTime f))) as [dt|] eqn:E6;
    [|done]; simpl in Hv.
  injection Hv as <-.
  apply requiredString_Some in E1 as [-> _], E3 as [-> _], E4 as [-> _],
    E5 as [-> _], E6 as [-> _].
  apply requiredNumber_Some in E2 as ->.
  by exists b, n, r, dp, ds, dt.
Qed.

Lemma validate_missing body k :
  k ∈ busPaths → prop body k = JUndefined →
  Bus.validate (Bus.cast (Bus.destructure body)) = None.
Proof.
  intros Hk Hp.
  destruct (Bus.validate _) as [doc|] eqn:Hv; [|done].
  apply validate_Some in Hv as (b & n & r & dp & ds & dt & H1 & H2 & H3 & H4 & H5 & H6 & _).
  unfold Bus.destructure in *; simpl in *.
  unfold busPaths in Hk.
  repeat (apply elem_of_cons in Hk as [->|Hk];
          [rewrite Hp in *; discriminate|]).
  by apply elem_of_nil in Hk.
Qed.

Lemma someFalsy_spec body :
  ServerJs.someFalsy (Bus.destructure body) = true
  ↔ ∃ k, k ∈ busPaths ∧ falsy (prop body k) = true.
Proof.
  unfold ServerJs.someFalsy, Bus.destructure, busPaths; simpl. split.
  - rewrite !orb_true_iff.
    intros [[[[[Hf|Hf]|Hf]|Hf]|Hf]|Hf]; eexists; (split; [|exact Hf]);
      set_solver.
  - intros (k & Hk & Hf).
    repeat (apply elem_of_cons in Hk as [->|Hk];
            [rewrite Hf; by rewrite ?orb_true_r|]).
    by apply elem_of_nil in Hk.
Qed.
End BusRoutes.

(** ** Creating a bus *)

Section Create.
Context `{Runtime}.

Lemma serverjs_create_outcome env srv req sid s :
  cookie req = Some sid → sessions srv !! sid = Some s → isAdmin s →
  route req = PostBuses →
  ServerJs.app env srv req
  = if ServerJs.someFalsy (Bus.destructure (body req))
    then (srv, mkReply (respond 400 (Message "Palun täitke kõik väljad")) None)
    else match Bus.save (new_oid env) (Bus.destructure (body req)) (buses srv) with
         | Normal (coll, bus) =>
             (withBuses srv coll,
              mkReply (respond 201 (MessageBus "Buss on edukalt lisatud" bus)) None)
         | Thrown _ =>
             (srv, mkReply (respond 500 (Message "Serveri viga bussi lisamisel")) None)
         end.
Proof.
  intros Hc Hs Ha Hr. unfold ServerJs.app.
  destruct (ServerJs.someFalsy _) eqn:Hf;
    [|destruct (Bus.save _ _ _) as [[coll bus]|e] eqn:Hsave];
    eapply serve_session_kept; eauto;
    unfold ServerJs.router; rewrite Hr, serverjs_post_buses_admin by done;
    rewrite Hf; [done| |]; by rewrite Hsave.
Qed.

Lemma part001_create_outcome env srv req sid s :
  cookie req = Some sid → sessions srv !! sid = Some s → isAdmin s →
  route req = PostBuses →
  Part001.app env srv req
  = match Bus.save (new_oid env) (Bus.destructure (body req)) (buses srv) with
    | Normal (coll, bus) =>
        (withBuses srv coll,
         mkReply (respond 201 (MessageBus "Bus added successfully" bus)) None)
    | Thrown _ => (srv, mkReply (respond 500 (Message "Error adding bus")) None)
    end.
Proof.
  intros Hc Hs Ha Hr. unfold Part001.app.
  destruct (Bus.save _ _ _) as [[coll bus]|e] eqn:Hsave;
    eapply serve_session_kept; eauto;
    unfold Part001.router; rewrite Hr, part001_post_buses_admin by done;
    by rewrite Hsave.
Qed.

(** In [src/server.js] a create request that lacks one of the six fields is
    answered 400 and inserts nothing. *)
Lemma serverjs_create_missing_field env srv req sid s k :
  cookie req = Some sid → sessions srv !! sid = Some s → isAdmin s →
  route req = PostBuses →
  k ∈ busPaths → body req !! k = None →
  ServerJs.app env srv req
  = (srv, mkReply (respond 400 (Message "Palun täitke kõik väljad")) None).
Proof.
  intros Hc Hs Ha Hr Hk Hb.
  rewrite (serverjs_create_outcome env srv req sid s) by done.
  assert (ServerJs.someFalsy (Bus.destructure (body req)) = true) as ->; [|done].
  apply someFalsy_spec. exists k. split; [done|].
  unfold prop. by rewrite Hb.
Qed.

(** In [src/unnamed/part_001] the same request fails document validation
    inside [save()], and the [catch] block answers 500; nothing is
    inserted either. *)
Lemma part001_create_missing_field env srv req sid s k :
  cookie req = Some sid → sessions srv !! sid = Some s → isAdmin s →
  route req = PostBuses →
  k ∈ busPaths → body req !! k = None →
  Part001.app env srv req
  = (srv, mkReply (respond 500 (Message "Error adding bus")) None).
Proof.
  intros Hc Hs Ha Hr Hk Hb.
  rewrite (part001_create_outcome env srv req sid s) by done.
  unfold Bus.save. rewrite (validate_missing (body req) k); [done|done|].
  unfold prop. by rewrite Hb.
Qed.

(** C9. In [src/server.js] the presence check of the create route is a
    truthiness test: an administrator's request is answered 400 exactly when
    one of the six fields is falsy, the 400 answer carries the
    fill-all-fields message and inserts nothing, and a payload whose
    [seats] is the number 0 is rejected that way whatever else it holds. *)
Theorem serverjs_create_rejects_falsy env srv req sid s :
  cookie req = Some sid → sessions srv !! sid = Some s → isAdmin s →
  route req = PostBuses →
  (status (response (ServerJs.app env srv req).2) = 400
   ↔ ∃ k, k ∈ busPaths ∧ falsy (prop (body req) k) = true)
  ∧ (status (response (ServerJs.app env srv req).2) = 400 →
     ServerJs.app env srv req
     = (srv, mkReply (respond 400 (Message "Palun täitke kõik väljad")) None))
  ∧ (prop (body req) "seats" = JNumber 0 →
     ServerJs.app env srv req
     = (srv, mkReply (respond 400 (Message "Palun täitke kõik väljad")) None)).
Proof.
  intros Hc Hs Ha Hr.
  rewrite (serverjs_create_outcome env srv req sid s) by done.
  rewrite <- someFalsy_spec.
  split_and!.
  - destruct (ServerJs.someFalsy _); [done|].
    by destruct (Bus.save _ _ _) as [[coll bus]|e].
  - destruct (ServerJs.someFalsy _); [done|].
    by destruct (Bus.save _ _ _) as [[coll bus]|e].
  - intros Hz.
    assert (ServerJs.someFalsy (Bus.destructure (body req)) = true) as ->; [|done].
    apply someFalsy_spec. exists "seats". split; [set_solver|]. by rewrite Hz.
Qed.
End Create.

(** C9, at a payload that supplies all six fields with [seats: 0]. *)
Lemma serverjs_create_rejects_falsy_witness :
  (∀ k, k ∈ busPaths → is_Some (<["seats" := JNumber 0]> Sample.completeBus !! k))
  ∧ ServerJs.app Sample.env0 Sample.withSessions
      (mkRequest (Some "adm") PostBuses (<["seats" := JNumber 0]> Sample.completeBus))
    = (Sample.withSessions,
       mkReply (respond 400 (Message "Palun täitke kõik väljad")) None).
Proof.
  split.
  - intros k Hk. unfold busPaths in Hk.
    repeat (apply elem_of_cons in Hk as [->|Hk]; [vm_compute; eauto|]).
    by apply elem_of_nil in Hk.
  - apply (serverjs_create_rejects_falsy Sample.env0 Sample.withSessions
             (mkRequest (Some "adm") PostBuses (<["seats" := JNumber 0]> Sample.completeBus))
             "adm" Sample.adminSession);
      [reflexivity | reflexivity | split; [by eexists | reflexivity]
      | reflexivity | reflexivity].
Defined.

(** C1. In [src/unnamed/part_001] an administrator's create request without
    [seats] is answered 500 with the route's generic error message, where the
    route's own annotation promises 400 for invalid input; nothing is
    inserted. *)
Theorem part001_create_without_seats_500 :
  Part001.app Sample.env0 Sample.withSessions
    (mkRequest (Some "adm") PostBuses (delete "seats" Sample.completeBus))
  = (Sample.withSessions, mkReply (respond 500 (Message "Error adding bus")) None).
Proof.
  apply (part001_create_missing_field _ _ _ "adm" Sample.adminSession "seats").
  - reflexivity.
  - reflexivity.
  - split; [by eexists | reflexivity].
  - reflexivity.
  - set_solver.
  - apply lookup_delete_eq.
Qed.

(** ** Updating a bus *)

Section Update.
Context `{Runtime}.

Lemma serverjs_update_outcome env srv req sid s id :
  cookie req = Some sid → sessions srv !! sid = Some s → isAdmin s →
  route req = PutBus id →
  ServerJs.app env srv req
  = match Bus.findByIdAndUpdate id (Bus.destructure (body req)) true (buses srv) with
    | Normal (coll, Some bus) =>
        (withBuses srv coll,
         mkReply (respond 200 (MessageBus "Buss on uuendatud" bus)) None)
    | Normal (coll, None) =>
        (withBuses srv coll, mkReply (respond 404 (Message "Buss ei leitud")) None)
    | Thrown _ =>
        (srv, mkReply (respond 500 (Message "Serveri viga bussi muutmisel")) None)
    end.
Proof.
  intros Hc Hs Ha Hr. unfold ServerJs.app.
  destruct (Bus.findByIdAndUpdate _ _ _ _) as [[coll [bus|]]|e] eqn:Hupd;
    eapply serve_session_kept; eauto;
    unfold ServerJs.router; rewrite Hr, serverjs_put_bus_admin by done;
    by rewrite Hupd.
Qed.

Lemma part001_update_outcome env srv req sid s id :
  cookie req = Some sid → sessions srv !! sid = Some s → isAdmin s →
  route req = PutBus id →
  Part001.app env srv req
  = match Bus.findByIdAndUpdate id (Bus.destructure (body req)) false (buses srv) with
    | Normal (coll, Some bus) =>
        (withBuses srv coll,
         mkReply (respond 200 (MessageBus "Bus updated successfully" bus)) None)
    | Normal (coll, None) =>
        (withBuses srv coll, mkReply (respond 404 (Message "Bus not found")) None)
    | Thrown _ => (srv, mkReply (respond 500 (Message "Error updating bus")) None)
    end.
Proof.
  intros Hc Hs Ha Hr. unfold Part001.app.
  destruct (Bus.findByIdAndUpdate _ _ _ _) as [[coll [bus|]]|e] eqn:Hupd;
    eapply serve_session_kept; eauto;
    unfold Part001.router; rewrite Hr, part001_put_bus_admin by done;
    by rewrite Hupd.
Qed.

(** What [findByIdAndUpdate] does once the filter and the update are
    accepted, and that it throws before reaching the collection otherwise. *)
Lemma findByIdAndUpdate_accepted id i f rv coll :
  castObjectId id = Some i →
  Bus.castFails (Bus.cast f) = false →
  rv && negb (Bus.updateValid (Bus.cast f)) = false →
  Bus.findByIdAndUpdate id f rv coll
  = match coll !! i with
    | None => Normal (coll, None)
    | Some doc =>
        Normal (<[i := Bus.applyUpdate (Bus.cast f) doc]> coll,
                Some (i, Bus.applyUpdate (Bus.cast f) doc))
    end.
Proof. intros Hi Hc Hv. unfold Bus.findByIdAndUpdate. by rewrite Hi, Hc, Hv. Qed.

Lemma findByIdAndUpdate_rejected id f rv coll :
  castObjectId id = None ∨ Bus.castFails (Bus.cast f) = true
  ∨ rv && negb (Bus.updateValid (Bus.cast f)) = true →
  ∃ e, Bus.findByIdAndUpdate id f rv coll = Thrown e.
Proof.
  unfold Bus.findByIdAndUpdate. intros [Hi|[Hc|Hv]].
  - rewrite Hi. eauto.
  - destruct (castObjectId id); [rewrite Hc|]; eauto.
  - destruct (castObjectId id); [|eauto].
    destruct (Bus.castFails _); [eauto|]. rewrite Hv. eauto.
Qed.

(** The update route of either variant, under an administrator's session. *)
Lemma update_outcome v env srv req sid s id :
  cookie req = Some sid → sessions srv !! sid = Some s → isAdmin s →
  route req = PutBus id →
  app v env srv req
  = match Bus.findByIdAndUpdate id (Bus.destructure (body req))
            (match v with ServerJsFile => true | Part001File => false end)
            (buses srv) with
    | Normal (coll, Some bus) =>
        (withBuses srv coll,
         mkReply (respond 200 (MessageBus
           (match v with
            | ServerJsFile => "Buss on uuendatud"
            | Part001File => "Bus updated successfully"
            end) bus)) None)
    | Normal (coll, None) =>
        (withBuses srv coll,
         mkReply (respond 404 (Message
           (match v with
            | ServerJsFile => "Buss ei leitud"
            | Part001File => "Bus not found"
            end))) None)
    | Thrown _ =>
        (srv, mkReply (respond 500 (Message
           (match v with
            | ServerJsFile => "Serveri viga bussi muutmisel"
            | Part001File => "Error updating bus"
            end))) None)
    end.
Proof.
  intros Hc Hs Ha Hr. destruct v; simpl.
  - by apply serverjs_update_outcome with sid s.
  - by apply part001_update_outcome with sid s.
Qed.

(** C3, as the code has it.  An administrator's update first casts the id
    and the supplied values to their declared types (and, in
    [src/server.js], runs the update validators on them).  When that fails
    the answer is 500 and nothing is persisted, whether or not the bus
    exists.  Otherwise the answer is 404 when no bus has that id, and 200
    with the updated record, which is the one persisted, when one has. *)
Theorem update_casts_then_looks_up v env srv req sid s id :
  cookie req = Some sid → sessions srv !! sid = Some s → isAdmin s →
  route req = PutBus id →
  let p := Bus.cast (Bus.destructure (body req)) in
  let runValidators := match v with ServerJsFile => true | Part001File => false end in
  let rejected :=
    castObjectId id = None ∨ Bus.castFails p = true
    ∨ runValidators && negb (Bus.updateValid p) = true in
  let out := app v env srv req in
  (rejected ∧ status (response out.2) = 500 ∧ out.1 = srv)
  ∨ (¬ rejected ∧ ∃ i, castObjectId id = Some i ∧
       match buses srv !! i with
       | None => status (response out.2) = 404 ∧ out.1 = srv
       | Some doc =>
           status (response out.2) = 200
           ∧ (∃ m, json (response out.2) = MessageBus m (i, Bus.applyUpdate p doc))
           ∧ out.1 = withBuses srv (<[i := Bus.applyUpdate p doc]> (buses srv))
       end).
Proof.
  intros Hc Hs Ha Hr p rv rejected out.
  pose proof (update_outcome v env srv req sid s id Hc Hs Ha Hr) as Hout.
  fold rv in Hout. subst out.
  destruct (castObjectId id) as [i|] eqn:Hi;
    [destruct (Bus.castFails p) eqn:Hcf;
     [|destruct (rv && negb (Bus.updateValid p)) eqn:Hv]|].
  - left.
    destruct (findByIdAndUpdate_rejected id (Bus.destructure (body req)) rv (buses srv))
      as [e He]; [by right; left|].
    rewrite He in Hout. rewrite Hout. split; [|done]. by right; left.
  - left.
    destruct (findByIdAndUpdate_rejected id (Bus.destructure (body req)) rv (buses srv))
      as [e He]; [by right; right|].
    rewrite He in Hout. rewrite Hout. split; [|done]. by right; right.
  - right. split.
    { intros [?|[?|?]]; congruence. }
    exists i. split; [done|].
    rewrite (findByIdAndUpdate_accepted id i) in Hout by done.
    rewrite Hout. destruct (buses srv !! i) as [doc|]; simpl.
    + split_and!; [done|by eexists|done].
    + split; [done|]. apply withBuses_same.
  - left.
    destruct (findByIdAndUpdate_rejected id (Bus.destructure (body req)) rv (buses srv))
      as [e He]; [by left|].
    rewrite He in Hout. rewrite Hout. split; [|done]. by left.
Qed.

(** An update that omits all six fields is accepted as it is. *)
Lemma empty_update_accepted body rv :
  (∀ k, k ∈ busPaths → prop body k = JUndefined) →
  Bus.castFails (Bus.cast (Bus.destructure body)) = false
  ∧ rv && negb (Bus.updateValid (Bus.cast (Bus.destructure body))) = false
  ∧ ∀ doc, Bus.applyUpdate (Bus.cast (Bus.destructure body)) doc = doc.
Proof.
  intros Hall. unfold busPaths in Hall.
  unfold Bus.castFails, Bus.updateValid, Bus.applyUpdate, Bus.cast, Bus.destructure;
    simpl.
  rewrite !Hall by set_solver. simpl. split_and!; [done|by rewrite andb_false_r|].
  by intros [].
Qed.

(** C10. An administrator's update of an existing bus leaves every field
    that the payload omits as it was stored: whenever the update is answered
    200, each omitted field of the updated record equals the stored one, and
    an update whose payload omits all six fields is answered 200 with the
    stored record and changes nothing on the server. *)
Theorem update_preserves_omitted_fields v env srv req sid s id i doc :
  cookie req = Some sid → sessions srv !! sid = Some s → isAdmin s →
  route req = PutBus id →
  castObjectId id = Some i →
  buses srv !! i = Some doc →
  ((∀ k, k ∈ busPaths → prop (body req) k = JUndefined) →
   status (response (app v env srv req).2) = 200
   ∧ (∃ m, json (response (app v env srv req).2) = MessageBus m (i, doc))
   ∧ (app v env srv req).1 = srv)
  ∧ (status (response (app v env srv req).2) = 200 →
     ∃ m doc', json (response (app v env srv req).2) = MessageBus m (i, doc')
       ∧ buses (app v env srv req).1 !! i = Some doc'
       ∧ (prop (body req) "busNumber" = JUndefined →
          Bus.busNumber doc' = Bus.busNumber doc)
       ∧ (prop (body req) "seats" = JUndefined → Bus.seats doc' = Bus.seats doc)
       ∧ (prop (body req) "route" = JUndefined → Bus.route doc' = Bus.route doc)
       ∧ (prop (body req) "departurePoint" = JUndefined →
          Bus.departurePoint doc' = Bus.departurePoint doc)
       ∧ (prop (body req) "destinationPoint" = JUndefined →
          Bus.destinationPoint doc' = Bus.destinationPoint doc)
       ∧ (prop (body req) "departureTime" = JUndefined →
          Bus.departureTime doc' = Bus.departureTime doc)).
Proof.
  intros Hc Hs Ha Hr Hi Hdoc.
  rewrite (update_outcome v env srv req sid s id Hc Hs Ha Hr).
  split.
  - intros Hall.
    destruct (empty_update_accepted (body req)
                (match v with ServerJsFile => true | Part001File => false end) Hall)
      as (Hcf & Hv & Hsame).
    rewrite (findByIdAndUpdate_accepted id i) by done.
    rewrite Hdoc, Hsame; simpl. split_and!; [done|by eexists|].
    rewrite insert_id by done. apply withBuses_same.
  - unfold Bus.findByIdAndUpdate. rewrite Hi, Hdoc.
    destruct (Bus.castFails _); [by destruct v|].
    destruct (_ && _); [by destruct v|]. simpl. intros _.
    eexists _, _. split; [done|].
    split; [apply lookup_insert_eq|].
    unfold Bus.applyUpdate, Bus.cast, Bus.destructure; simpl.
    split_and!; by intros ->.
Qed.
End Update.

(** C3, instantiated: with the stored bus under [id1], an update of [id1]
    that supplies [seats: "41"] is answered 200, and the same update of
    [id2], which no bus has, is answered 404. *)
Lemma update_casts_then_looks_up_witness :
  status (response (app Part001File Sample.env0 Sample.withBus
            (mkRequest (Some "adm") (PutBus Sample.id1) {["seats" := JString "41"]})).2)
  = 200
  ∧ status (response (app ServerJsFile Sample.env0 Sample.withBus
              (mkRequest (Some "adm") (PutBus Sample.id2) {["seats" := JString "41"]})).2)
    = 404.
Proof.
  split.
  - destruct (update_casts_then_looks_up Part001File Sample.env0 Sample.withBus
                (mkRequest (Some "adm") (PutBus Sample.id1) {["seats" := JString "41"]})
                "adm" Sample.adminSession Sample.id1
                eq_refl eq_refl (conj (ex_intro _ _ eq_refl) eq_refl) eq_refl)
      as [[Hrej _]|(_ & i & Hi & Hm)].
    + exfalso. destruct Hrej as [Hn|[Hn|Hn]]; vm_compute in Hn; discriminate.
    + assert (i = 1%N) as -> by (vm_compute in Hi; congruence).
      assert (buses Sample.withBus !! 1%N = Some Sample.storedBus) as Hb
        by (vm_compute; reflexivity).
      rewrite Hb in Hm. exact (proj1 Hm).
  - destruct (update_casts_then_looks_up ServerJsFile Sample.env0 Sample.withBus
                (mkRequest (Some "adm") (PutBus Sample.id2) {["seats" := JString "41"]})
                "adm" Sample.adminSession Sample.id2
                eq_refl eq_refl (conj (ex_intro _ _ eq_refl) eq_refl) eq_refl)
      as [[Hrej _]|(_ & i & Hi & Hm)].
    + exfalso. destruct Hrej as [Hn|[Hn|Hn]]; vm_compute in Hn; discriminate.
    + assert (i = 2%N) as -> by (vm_compute in Hi; congruence).
      assert (buses Sample.withBus !! 2%N = None) as Hb by (vm_compute; reflexivity).
      rewrite Hb in Hm. exact (proj1 Hm).
Defined.

(** C3 as the specification words it fails: no bus has [id2], yet an
    administrator's update of [id2] with [seats: "abc"] is answered 500 in
    both variants, not 404, because the update is cast before the lookup. *)
Lemma update_absent_bus_bad_seats_500 :
  castObjectId Sample.id2 = Some 2%N
  ∧ buses Sample.withBus !! 2%N = None
  ∧ app Part001File Sample.env0 Sample.withBus
      (mkRequest (Some "adm") (PutBus Sample.id2) {["seats" := JString "abc"]})
    = (Sample.withBus, mkReply (respond 500 (Message "Error updating bus")) None)
  ∧ app ServerJsFile Sample.env0 Sample.withBus
      (mkRequest (Some "adm") (PutBus Sample.id2) {["seats" := JString "abc"]})
    = (Sample.withBus,
       mkReply (respond 500 (Message "Serveri viga bussi muutmisel")) None).
Proof. split_and!; vm_compute; reflexivity. Qed.

(** A malformed id never reaches the collection either. *)
Lemma update_malformed_id_500 :
  castObjectId "xyz" = None
  ∧ app Part001File Sample.env0 Sample.withBus
      (mkRequest (Some "adm") (PutBus "xyz") ∅)
    = (Sample.withBus, mkReply (respond 500 (Message "Error updating bus")) None).
Proof. split; vm_compute; reflexivity. Qed.

(** C10, instantiated: an empty update of the stored bus is answered 200
    and leaves the server as it was. *)
Lemma update_preserves_omitted_fields_witness :
  status (response (app ServerJsFile Sample.env0 Sample.withBus
            (mkRequest (Some "adm") (PutBus Sample.id1) ∅)).2) = 200
  ∧ (∃ m, json (response (app ServerJsFile Sample.env0 Sample.withBus
                   (mkRequest (Some "adm") (PutBus Sample.id1) ∅)).2)
          = MessageBus m (1%N, Sample.storedBus))
  ∧ (app ServerJsFile Sample.env0 Sample.withBus
       (mkRequest (Some "adm") (PutBus Sample.id1) ∅)).1 = Sample.withBus.
Proof.
  apply (update_preserves_omitted_fields ServerJsFile Sample.env0 Sample.withBus
           (mkRequest (Some "adm") (PutBus Sample.id1) ∅)
           "adm" Sample.adminSession Sample.id1 1%N Sample.storedBus
           eq_refl eq_refl (conj (ex_intro _ _ eq_refl) eq_refl) eq_refl);
    [vm_compute; reflexivity | vm_compute; reflexivity |].
  intros k _. unfold prop; simpl. by rewrite lookup_empty.
Defined.

(** ** Listing and deleting buses; the round trip *)

Section RoundTrip.
Context `{Runtime}.

(** [GET /api/buses] needs no session and changes nothing. *)
Lemma list_outcome v env srv req :
  route req = GetBuses →
  app v env srv req
  = (srv, mkReply (respond 200 (BusArray (Bus.find (buses srv)))) None).
Proof.
  intros Hr. destruct srv as [us bs ss].
  destruct v; unfold app, ServerJs.app, Part001.app, serve;
    destruct (loadSession _ _ _) as [sid0 loaded];
    unfold ServerJs.router, Part001.router; rewrite Hr;
    unfold ServerJs.get_buses, Part001.get_buses, try_catch, mbind, Handler_bind,
      onBuses, mret, Handler_ret; simpl;
    by rewrite saveSession_unchanged.
Qed.

Lemma create_outcome v env srv req sid s :
  cookie req = Some sid → sessions srv !! sid = Some s → isAdmin s →
  route req = PostBuses →
  status (response (app v env srv req).2) = 201 →
  ∃ m doc,
    Bus.validate (Bus.cast (Bus.destructure (body req))) = Some doc
    ∧ buses srv !! new_oid env = None
    ∧ app v env srv req
      = (withBuses srv (<[new_oid env := doc]> (buses srv)),
         mkReply (respond 201 (MessageBus m (new_oid env, doc))) None).
Proof.
  intros Hc Hs Ha Hr. destruct v; simpl.
  - rewrite (serverjs_create_outcome env srv req sid s) by done.
    destruct (ServerJs.someFalsy _); [done|]. unfold Bus.save.
    destruct (Bus.validate _) as [doc|]; [|done].
    destruct (buses srv !! new_oid env); [done|]. intros _. by eexists _, _.
  - rewrite (part001_create_outcome env srv req sid s) by done.
    unfold Bus.save.
    destruct (Bus.validate _) as [doc|]; [|done].
    destruct (buses srv !! new_oid env); [done|]. intros _. by eexists _, _.
Qed.

Lemma delete_outcome v env srv req sid s id :
  cookie req = Some sid → sessions srv !! sid = Some s → isAdmin s →
  route req = DeleteBus id →
  app v env srv req
  = match Bus.findByIdAndDelete id (buses srv) with
    | Normal (coll, Some _) =>
        (withBuses srv coll,
         mkReply (respond 200 (Message
           (match v with
            | ServerJsFile => "Buss kustutatud"
            | Part001File => "Bus deleted successfully"
            end))) None)
    | Normal (coll, None) =>
        (withBuses srv coll,
         mkReply (respond 404 (Message
           (match v with
            | ServerJsFile => "Bussi ei leitud"
            | Part001File => "Bus not found"
            end))) None)
    | Thrown _ =>
        (srv, mkReply (respond 500 (Message
           (match v with
            | ServerJsFile => "Viga bussi kustutamisel"
            | Part001File => "Error deleting bus"
            end))) None)
    end.
Proof.
  intros Hc Hs Ha Hr.
  destruct v; unfold app, ServerJs.app, Part001.app;
    destruct (Bus.findByIdAndDelete _ _) as [[coll [bus|]]|e] eqn:Hdel;
    eapply serve_session_kept; eauto;
    unfold ServerJs.router, Part001.router; rewrite Hr;
    rewrite ?serverjs_delete_bus_admin, ?part001_delete_bus_admin by done;
    by rewrite Hdel.
Qed.

(** C8. Round trip over the bus collection, for an administrator's session.
    When a create request is answered 201, the answer carries a record with
    the id minted for it and the six submitted fields cast to their declared
    types, and the list route then returns that record.  When a delete
    request is answered 200, the answer is a bare message, the list route no
    longer returns a record with that id, and deleting the same id again is
    answered 404. *)
Theorem bus_collection_round_trip v env envL envD srv reqC reqD reqL sid s id :
  cookie reqC = Some sid → cookie reqD = Some sid →
  sessions srv !! sid = Some s → isAdmin s →
  route reqC = PostBuses → route reqD = DeleteBus id → route reqL = GetBuses →
  (status (response (app v env srv reqC).2) = 201 →
   ∃ m doc b n r dp ds dt l,
     json (response (app v env srv reqC).2) = MessageBus m (new_oid env, doc)
     ∧ doc = Bus.mk (Some b) (Some n) (Some r) (Some dp) (Some ds) (Some dt)
     ∧ castString (prop (body reqC) "busNumber") = Value b
     ∧ castNumber (prop (body reqC) "seats") = Value n
     ∧ castString (prop (body reqC) "route") = Value r
     ∧ castString (prop (body reqC) "departurePoint") = Value dp
     ∧ castString (prop (body reqC) "destinationPoint") = Value ds
     ∧ castString (prop (body reqC) "departureTime") = Value dt
     ∧ response (app v envL (app v env srv reqC).1 reqL).2 = respond 200 (BusArray l)
     ∧ (new_oid env, doc) ∈ l)
  ∧ (status (response (app v env srv reqD).2) = 200 →
     ∃ m i l,
       json (response (app v env srv reqD).2) = Message m
       ∧ castObjectId id = Some i
       ∧ is_Some (buses srv !! i)
       ∧ response (app v envL (app v env srv reqD).1 reqL).2 = respond 200 (BusArray l)
       ∧ (∀ doc, (i, doc) ∉ l)
       ∧ status (response (app v envD (app v env srv reqD).1 reqD).2) = 404).
Proof.
  intros HcC HcD Hs Ha HrC HrD HrL. split.
  - intros H201.
    destruct (create_outcome v env srv reqC sid s HcC Hs Ha HrC H201)
      as (m & doc & Hv & Hfree & ->).
    apply validate_Some in Hv
      as (b & n & r & dp & ds & dt & H1 & H2 & H3 & H4 & H5 & H6 & ->).
    rewrite (list_outcome v envL _ reqL HrL); simpl.
    eexists m, _, b, n, r, dp, ds, dt, _.
    split_and!; try done.
    unfold Bus.find. apply elem_of_map_to_list, lookup_insert_eq.
  - rewrite (delete_outcome v env srv reqD sid s id HcD Hs Ha HrD).
    unfold Bus.findByIdAndDelete.
    destruct (castObjectId id) as [i|] eqn:Hi; [|by destruct v].
    destruct (buses srv !! i) as [doc|] eqn:Hdoc; [|by destruct v].
    simpl. intros _.
    rewrite (list_outcome v envL _ reqL HrL); simpl.
    rewrite (delete_outcome v envD _ reqD sid s id) by done; simpl.
    unfold Bus.findByIdAndDelete. rewrite Hi, lookup_delete_eq; simpl.
    eexists _, i, _. split_and!; try done.
    intros doc' Hin. unfold Bus.find in Hin.
    apply elem_of_map_to_list in Hin. by rewrite lookup_delete_eq in Hin.
Qed.
End RoundTrip.

(** C8, instantiated: creating the sample bus on a server without buses,
    and deleting the stored bus from a server that has it. *)
Lemma bus_collection_round_trip_witness :
  (∃ l, response (app Part001File Sample.env1
                    (app Part001File Sample.env0 Sample.withSessions
                       (mkRequest (Some "adm") PostBuses Sample.completeBus)).1
                    (mkRequest None GetBuses ∅)).2 = respond 200 (BusArray l)
        ∧ (1%N, Sample.storedBus) ∈ l)
  ∧ status (response (app Part001File Sample.env1
                        (app Part001File Sample.env0 Sample.withBus
                           (mkRequest (Some "adm") (DeleteBus Sample.id1) ∅)).1
                        (mkRequest (Some "adm") (DeleteBus Sample.id1) ∅)).2) = 404.
Proof.
  split.
  - destruct (bus_collection_round_trip Part001File Sample.env0 Sample.env1 Sample.env1
                Sample.withSessions
                (mkRequest (Some "adm") PostBuses Sample.completeBus)
                (mkRequest (Some "adm") (DeleteBus Sample.id1) ∅)
                (mkRequest None GetBuses ∅)
                "adm" Sample.adminSession Sample.id1
                eq_refl eq_refl eq_refl (conj (ex_intro _ _ eq_refl) eq_refl)
                eq_refl eq_refl eq_refl) as [Hcreate _].
    destruct Hcreate as (m & doc & b & n & r & dp & ds & dt & l & Hj & -> & Hb & Hn
                         & Hr & Hdp & Hds & Hdt & Hl & Hin);
      [vm_compute; reflexivity|].
    exists l. split; [exact Hl|].
    vm_compute in Hb, Hn, Hr, Hdp, Hds, Hdt.
    injection Hb as <-. injection Hn as <-. injection Hr as <-.
    injection Hdp as <-. injection Hds as <-. injection Hdt as <-.
    exact Hin.
  - destruct (bus_collection_round_trip Part001File Sample.env0 Sample.env1 Sample.env1
                Sample.withBus
                (mkRequest (Some "adm") PostBuses Sample.completeBus)
                (mkRequest (Some "adm") (DeleteBus Sample.id1) ∅)
                (mkRequest None GetBuses ∅)
                "adm" Sample.adminSession Sample.id1
                eq_refl eq_refl eq_refl (conj (ex_intro _ _ eq_refl) eq_refl)
                eq_refl eq_refl eq_refl) as [_ Hdelete].
    destruct Hdelete as (m & i & l & _ & _ & _ & _ & _ & H404);
      [vm_compute; reflexivity|].
    exact H404.
Defined.

(** ** Registration and login *)

Section Users.
Context `{Runtime}.

Lemma find_user_None name (coll : gmap N User.t) :
  list_find (User.byUsername name) (map_to_list coll) = None
  ↔ ∀ id u, coll !! id = Some u → User.username u ≠ name.
Proof.
  rewrite list_find_None, Forall_forall. split.
  - intros Hl id u Hu. apply (Hl (id, u)). by apply elem_of_map_to_list.
  - intros Ha [id u] Hin. apply elem_of_map_to_list in Hin. by apply Ha in Hin.
Qed.

Lemma find_user_Some name id u (coll : gmap N User.t) :
  coll !! id = Some u → User.username u = name →
  is_Some (list_find (User.byUsername name) (map_to_list coll)).
Proof.
  intros Hu Hn. apply list_find_elem_of with (id, u); [|done].
  by apply elem_of_map_to_list.
Qed.

(** Casting a scalar to a string never fails. *)
Lemma castString_scalar v : castString v ≠ Invalid.
Proof. by destruct v. Qed.

Lemma findOne_absent username coll :
  (∀ id u, coll !! id = Some u → castString username ≠ Value (User.username u)) →
  User.findOne username coll = Normal None.
Proof.
  intros Ha. unfold User.findOne.
  destruct (castString username) as [| |name|] eqn:E; try done.
  - assert (list_find (User.byUsername name) (map_to_list coll) = None) as ->; [|done].
    apply find_user_None. intros id u Hu Hn. subst name. by apply (Ha id u).
  - by destruct (castString_scalar username).
Qed.

Lemma findOne_present name id u coll :
  coll !! id = Some u → User.username u = name →
  ∃ d, User.findOne (JString name) coll = Normal (Some d).
Proof.
  intros Hu Hn. unfold User.findOne; simpl.
  destruct (find_user_Some name id u coll Hu Hn) as [[j d] ->]. by exists d.
Qed.

(** The role handed to [new User]: [role || 'user'] in [src/server.js],
    [role] as received in [src/unnamed/part_001]. *)
Lemma save_accepts id username hashed role name r coll :
  castString username = Value name → name ≠ "" → hashed ≠ "" →
  User.validRole (User.castRole role) = Some r →
  coll !! id = None →
  (∀ id' u, coll !! id' = Some u → User.username u ≠ name) →
  User.save id username (JString hashed) role coll
  = Normal (<[id := User.mk name hashed r]> coll, (id, User.mk name hashed r)).
Proof.
  intros Hn Hne Hh Hr Hid Hfree. unfold User.save, User.validate.
  rewrite Hn; simpl. unfold nonempty.
  rewrite !bool_decide_eq_false_2 by done; simpl.
  rewrite Hr; simpl. rewrite Hid.
  by apply find_user_None in Hfree as ->.
Qed.

Lemma save_rejects_role id username password role coll :
  User.validRole (User.castRole role) = None →
  User.save id username password role coll = Thrown ValidationError.
Proof.
  intros Hr. unfold User.save, User.validate.
  destruct (requiredString (castString username)); [|done]; simpl.
  destruct (requiredString (castString password)); [|done]; simpl.
  by rewrite Hr.
Qed.

Lemma register_duplicate v env srv req u :
  route req = PostRegister →
  User.findOne (prop (body req) "username") (users srv) = Normal (Some u) →
  app v env srv req
  = (srv, mkReply (respond 400 (Message
            (match v with
             | ServerJsFile => "Kasutaja on juba olemas"
             | Part001File => "User already exists"
             end))) None).
Proof.
  intros Hr Hf. destruct srv as [us bs ss]; simpl in Hf.
  destruct v; unfold app, ServerJs.app, Part001.app, serve;
    destruct (loadSession _ _ _) as [sid0 loaded];
    unfold ServerJs.router, Part001.router; rewrite Hr;
    unfold ServerJs.register, Part001.register, try_catch, mbind, Handler_bind,
      onUsers; simpl; rewrite Hf; simpl;
    by rewrite saveSession_unchanged.
Qed.

Lemma register_fails v env srv req :
  route req = PostRegister →
  User.findOne (prop (body req) "username") (users srv) = Normal None →
  (∀ p, prop (body req) "password" = JString p →
        ∃ e, User.save (new_oid env) (prop (body req) "username")
               (JString (bcrypt_hash (salt env) p))
               (match v with
                | ServerJsFile => js_or (prop (body req) "role") (JString "user")
                | Part001File => prop (body req) "role"
                end) (users srv) = Thrown e) →
  app v env srv req
  = (srv, mkReply (respond 500 (Message
            (match v with
             | ServerJsFile => "Viga registreerimisel"
             | Part001File => "Error registering user"
             end))) None).
Proof.
  intros Hr Hf Hsave. destruct srv as [us bs ss]; simpl in Hf, Hsave.
  destruct v; unfold app, ServerJs.app, Part001.app, serve;
    destruct (loadSession _ _ _) as [sid0 loaded];
    unfold ServerJs.router, Part001.router; rewrite Hr;
    unfold ServerJs.register, Part001.register, try_catch, mbind, Handler_bind,
      onUsers; simpl; rewrite Hf; simpl;
    (destruct (prop (body req) "password") as [| | | |p] eqn:Hp; simpl;
     try (by rewrite saveSession_unchanged);
     destruct (Hsave p eq_refl) as [e ->]; simpl;
     by rewrite saveSession_unchanged).
Qed.

Lemma register_succeeds v env srv req p coll id doc :
  route req = PostRegister →
  User.findOne (prop (body req) "username") (users srv) = Normal None →
  prop (body req) "password" = JString p →
  User.save (new_oid env) (prop (body req) "username")
    (JString (bcrypt_hash (salt env) p))
    (match v with
     | ServerJsFile => js_or (prop (body req) "role") (JString "user")
     | Part001File => prop (body req) "role"
     end) (users srv) = Normal (coll, (id, doc)) →
  status (response (app v env srv req).2) = 201
  ∧ (∃ m, json (response (app v env srv req).2) = MessageUser m (User.role doc) id)
  ∧ users (app v env srv req).1 = coll
  ∧ buses (app v env srv req).1 = buses srv.
Proof.
  intros Hr Hf Hp Hsave. destruct srv as [us bs ss]; simpl in Hf, Hsave.
  destruct v; unfold app, ServerJs.app, Part001.app, serve;
    destruct (loadSession _ _ _) as [sid0 loaded];
    unfold ServerJs.router, Part001.router; rewrite Hr;
    unfold ServerJs.register, Part001.register, try_catch, mbind, Handler_bind,
      onUsers; simpl; rewrite Hf; simpl; rewrite Hp; simpl; rewrite Hsave; simpl;
    unfold saveSession; simpl; case_bool_decide; simpl; eauto 10.
Qed.
End Users.

Section Registration.
Context `{Runtime}.

Lemma validRole_default_part001 :
  User.validRole (User.castRole JUndefined) = Some (Some "user").
Proof. done. Qed.

Lemma validRole_default_serverjs :
  User.validRole (User.castRole (js_or JUndefined (JString "user"))) = Some (Some "user").
Proof. done. Qed.

Lemma validRole_outside_enum r :
  r ∉ User.roles → User.validRole (User.castRole (JString r)) = None.
Proof. intros Hr. simpl. by case_bool_decide. Qed.

Lemma js_or_nonempty_string r d : r ≠ "" → js_or (JString r) d = JString r.
Proof. intros Hr. unfold js_or; simpl. by case_bool_decide. Qed.

(** A role the schema accepts, as either variant hands it to [new User]. *)
Lemma validRole_accepted v role :
  role ∈ [JUndefined; JString "user"; JString "admin"] →
  ∃ r, User.validRole (User.castRole
         (match v with
          | ServerJsFile => js_or role (JString "user")
          | Part001File => role
          end)) = Some r.
Proof.
  intros Hr.
  repeat (apply elem_of_cons in Hr as [->|Hr]; [destruct v; by eexists|]).
  by apply elem_of_nil in Hr.
Qed.

(** C2, as the code has it.  Registering a fresh, non-empty username with a
    string password: when [role] is absent the user is persisted with role
    ["user"] and the answer is 201; when [role] is a non-empty string other
    than ["user"] and ["admin"] the schema's [enum] rejects the document, the
    answer is 500, and neither a user nor a session is stored. *)
Theorem register_role_default_or_rejected v env srv req name pw :
  route req = PostRegister →
  prop (body req) "username" = JString name → name ≠ "" →
  prop (body req) "password" = JString pw →
  (∀ id u, users srv !! id = Some u → User.username u ≠ name) →
  users srv !! new_oid env = None →
  (prop (body req) "role" = JUndefined
   ∨ ∃ r, prop (body req) "role" = JString r ∧ (r ∉ User.roles) ∧ r ≠ "") →
  if bool_decide (prop (body req) "role" = JUndefined)
  then status (response (app v env srv req).2) = 201
       ∧ (∃ m, json (response (app v env srv req).2)
               = MessageUser m (Some "user") (new_oid env))
       ∧ users (app v env srv req).1
         = <[new_oid env := User.mk name (bcrypt_hash (salt env) pw) (Some "user")]>
             (users srv)
  else (∃ m, response (app v env srv req).2 = respond 500 (Message m))
       ∧ set_cookie (app v env srv req).2 = None
       ∧ (app v env srv req).1 = srv.
Proof.
  intros Hr Hu Hne Hp Hfree Hid Hrole.
  assert (User.findOne (prop (body req) "username") (users srv) = Normal None) as Hf.
  { apply findOne_absent. intros id u Hlk. rewrite Hu; simpl.
    intros [= ->]. by apply (Hfree id u). }
  case_bool_decide as Hd.
  - pose proof (save_accepts (new_oid env) (JString name) (bcrypt_hash (salt env) pw)
                  (match v with
                   | ServerJsFile => js_or JUndefined (JString "user")
                   | Part001File => JUndefined
                   end) name (Some "user") (users srv) eq_refl Hne
                  (bcrypt_hash_nonempty _ _)) as Hsave.
    rewrite <- Hu, <- Hd in Hsave.
    destruct (register_succeeds v env srv req pw _ _ _ Hr Hf Hp
                (Hsave ltac:(rewrite Hd; by destruct v) Hid Hfree))
      as (H201 & Hj & Hus & _).
    by split_and!.
  - destruct Hrole as [?|(r & Hrl & Hout & Hr0)]; [done|].
    rewrite (register_fails v env srv req Hr Hf); [by destruct v; eauto|].
    intros p _. eexists. apply save_rejects_role.
    rewrite Hrl. destruct v; [rewrite js_or_nonempty_string by done|];
      by apply validRole_outside_enum.
Qed.

(** C7. Two registrations of the same username, one after the other: when
    the username is fresh and the first request is well formed, the first is
    answered 201 and stores the user; the second, whatever else it carries,
    is answered 400 with the duplicate-user message, sets no cookie and
    leaves the server (users and sessions alike) as the first left it. *)
Theorem register_same_username_twice v env1 env2 srv req1 req2 name pw :
  route req1 = PostRegister → route req2 = PostRegister →
  prop (body req1) "username" = JString name →
  prop (body req2) "username" = JString name →
  name ≠ "" →
  prop (body req1) "password" = JString pw →
  prop (body req1) "role" ∈ [JUndefined; JString "user"; JString "admin"] →
  (∀ id u, users srv !! id = Some u → User.username u ≠ name) →
  users srv !! new_oid env1 = None →
  status (response (app v env1 srv req1).2) = 201
  ∧ (∃ u, users (app v env1 srv req1).1 !! new_oid env1 = Some u
          ∧ User.username u = name)
  ∧ response (app v env2 (app v env1 srv req1).1 req2).2
    = respond 400 (Message
        (match v with
         | ServerJsFile => "Kasutaja on juba olemas"
         | Part001File => "User already exists"
         end))
  ∧ set_cookie (app v env2 (app v env1 srv req1).1 req2).2 = None
  ∧ (app v env2 (app v env1 srv req1).1 req2).1 = (app v env1 srv req1).1.
Proof.
  intros Hr1 Hr2 Hu1 Hu2 Hne Hp Hrole Hfree Hid.
  assert (User.findOne (prop (body req1) "username") (users srv) = Normal None) as Hf.
  { apply findOne_absent. intros id u Hlk. rewrite Hu1; simpl.
    intros [= ->]. by apply (Hfree id u). }
  destruct (validRole_accepted v _ Hrole) as [r Hvalid].
  edestruct (register_succeeds v env1 srv req1 pw) as (H201 & _ & Hus & _);
    [done|done|done| |].
  { rewrite Hu1. apply save_accepts; try done. apply bcrypt_hash_nonempty. }
  assert (users (app v env1 srv req1).1 !! new_oid env1
          = Some (User.mk name (bcrypt_hash (salt env1) pw) r)) as Hstored.
  { rewrite Hus. apply lookup_insert_eq. }
  destruct (findOne_present name _ _ _ Hstored eq_refl) as [d Hd].
  rewrite <- Hu2 in Hd.
  rewrite (register_duplicate v env2 _ req2 d Hr2 Hd).
  split_and!; try done. by eexists.
Qed.
End Registration.

(** C2 as the specification words it fails: registering with the role
    ["superuser"] does not store a user with role ["user"]; both variants
    answer 500 and store nothing. *)
Lemma register_invalid_role_500 :
  app Part001File Sample.env0 Sample.empty
    (mkRequest None PostRegister Sample.superuserBody)
  = (Sample.empty, mkReply (respond 500 (Message "Error registering user")) None)
  ∧ app ServerJsFile Sample.env0 Sample.empty
      (mkRequest None PostRegister Sample.superuserBody)
    = (Sample.empty, mkReply (respond 500 (Message "Viga registreerimisel")) None).
Proof. split; vm_compute; reflexivity. Qed.

(** C2, instantiated at an absent role and at the role ["superuser"]. *)
Lemma register_role_default_or_rejected_witness :
  users (app Part001File Sample.env0 Sample.empty
           (mkRequest None PostRegister Sample.bobBody)).1
  = <[1%N := User.mk "bob" (bcrypt_hash 7%N "pw") (Some "user")]> ∅
  ∧ (app ServerJsFile Sample.env0 Sample.empty
       (mkRequest None PostRegister Sample.superuserBody)).1 = Sample.empty.
Proof.
  split.
  - apply (register_role_default_or_rejected Part001File Sample.env0 Sample.empty
             (mkRequest None PostRegister Sample.bobBody) "bob" "pw");
      [reflexivity | reflexivity | discriminate | reflexivity
      | intros id u Hu; vm_compute in Hu; discriminate | reflexivity
      | left; reflexivity].
  - apply (register_role_default_or_rejected ServerJsFile Sample.env0 Sample.empty
             (mkRequest None PostRegister Sample.superuserBody) "bob" "pw");
      [reflexivity | reflexivity | discriminate | reflexivity
      | intros id u Hu; vm_compute in Hu; discriminate | reflexivity
      | right; exists "superuser"; split_and!; [reflexivity | | discriminate]].
    unfold User.roles. intros Hin.
    repeat (apply elem_of_cons in Hin as [Hin|Hin]; [discriminate|]).
    by apply elem_of_nil in Hin.
Defined.

(** C7, instantiated: registering ["bob"] twice on an empty server. *)
Lemma register_same_username_twice_witness :
  status (response (app Part001File Sample.env0 Sample.empty
            (mkRequest None PostRegister Sample.bobBody)).2) = 201
  ∧ response (app Part001File Sample.env1
                (app Part001File Sample.env0 Sample.empty
                   (mkRequest None PostRegister Sample.bobBody)).1
                (mkRequest None PostRegister Sample.superuserBody)).2
    = respond 400 (Message "User already exists").
Proof.
  destruct (register_same_username_twice Part001File Sample.env0 Sample.env1
              Sample.empty
              (mkRequest None PostRegister Sample.bobBody)
              (mkRequest None PostRegister Sample.superuserBody) "bob" "pw")
    as (H201 & _ & H400 & _);
    [reflexivity | reflexivity | reflexivity | reflexivity | discriminate
    | reflexivity | apply list_elem_of_here
    | intros id u Hu; vm_compute in Hu; discriminate | reflexivity |].
  split; [exact H201 | exact H400].
Defined.

(** ** Login *)

Section Login.
Context `{Runtime}.

Lemma login_unknown_user v env srv req :
  route req = PostLogin →
  User.findOne (prop (body req) "username") (users srv) = Normal None →
  app v env srv req
  = (srv, mkReply (respond 401 (Message
            (match v with
             | ServerJsFile => "Vale kasutajanimi või parool"
             | Part001File => "Invalid username or password"
             end))) None).
Proof.
  intros Hr Hf. destruct srv as [us bs ss]; simpl in Hf.
  destruct v; unfold app, ServerJs.app, Part001.app, serve;
    destruct (loadSession _ _ _) as [sid0 loaded];
    unfold ServerJs.router, Part001.router; rewrite Hr;
    unfold ServerJs.login, Part001.login, try_catch, mbind, Handler_bind,
      onUsers; simpl; rewrite Hf; simpl;
    by rewrite saveSession_unchanged.
Qed.

Lemma login_wrong_password v env srv req u p :
  route req = PostLogin →
  User.findOne (prop (body req) "username") (users srv) = Normal (Some u) →
  prop (body req) "password" = JString p →
  bcrypt_compare p (User.password u.2) = false →
  app v env srv req
  = (srv, mkReply (respond 401 (Message
            (match v with
             | ServerJsFile => "Vale kasutajanimi või parool"
             | Part001File => "Invalid username or password"
             end))) None).
Proof.
  intros Hr Hf Hp Hc. destruct srv as [us bs ss]; simpl in Hf.
  destruct v; unfold app, ServerJs.app, Part001.app, serve;
    destruct (loadSession _ _ _) as [sid0 loaded];
    unfold ServerJs.router, Part001.router; rewrite Hr;
    unfold ServerJs.login, Part001.login, try_catch, mbind, Handler_bind,
      onUsers; simpl; rewrite Hf; simpl; rewrite Hp; simpl; rewrite Hc; simpl;
    by rewrite saveSession_unchanged.
Qed.

(** When the password is a string, a login that fails because no user has
    the username and a login that fails because the password does not verify
    against the stored hash get the same reply in either variant: status
    401, one and the same message, no cookie; and neither changes the
    server. *)
Theorem login_failures_indistinguishable v envA envB srvA srvB reqA reqB u p :
  route reqA = PostLogin → route reqB = PostLogin →
  (∀ id u', users srvA !! id = Some u' →
            castString (prop (body reqA) "username") ≠ Value (User.username u')) →
  User.findOne (prop (body reqB) "username") (users srvB) = Normal (Some u) →
  prop (body reqB) "password" = JString p →
  bcrypt_compare p (User.password u.2) = false →
  status (response (app v envA srvA reqA).2) = 401
  ∧ (∃ m, json (response (app v envA srvA reqA).2) = Message m)
  ∧ (app v envA srvA reqA).2 = (app v envB srvB reqB).2
  ∧ set_cookie (app v envA srvA reqA).2 = None
  ∧ (app v envA srvA reqA).1 = srvA
  ∧ (app v envB srvB reqB).1 = srvB.
Proof.
  intros HrA HrB Habsent Hfound Hp Hc.
  rewrite (login_unknown_user v envA srvA reqA HrA (findOne_absent _ _ Habsent)).
  rewrite (login_wrong_password v envB srvB reqB u p HrB Hfound Hp Hc).
  split_and!; try done. by eexists.
Qed.
End Login.

(** The same on a server where ["bob"] is registered: ["eve"] is unknown,
    and ["bad"] is not bob's password. *)
Lemma login_failures_indistinguishable_witness :
  (app Part001File Sample.env0 Sample.withBob
     (mkRequest None PostLogin (Sample.loginBody "eve" "pw"))).2
  = (app Part001File Sample.env1 Sample.withBob
       (mkRequest None PostLogin (Sample.loginBody "bob" "bad"))).2.
Proof.
  apply (login_failures_indistinguishable Part001File Sample.env0 Sample.env1
           Sample.withBob Sample.withBob
           (mkRequest None PostLogin (Sample.loginBody "eve" "pw"))
           (mkRequest None PostLogin (Sample.loginBody "bob" "bad"))
           (1%N, Sample.bobUser) "bad").
  - reflexivity.
  - reflexivity.
  - intros id u' Hu'. simpl in Hu'.
    destruct (decide (id = 1%N)) as [->|Hne].
    + rewrite lookup_insert_eq in Hu'. injection Hu' as <-. discriminate.
    + rewrite lookup_insert_ne, lookup_empty in Hu' by done. discriminate.
  - vm_compute; reflexivity.
  - reflexivity.
  - reflexivity.
Defined.

(** C6. The two failure causes are not indistinguishable for every login.
    On a server where ["bob"] is registered, a login that names ["bob"] and
    carries no password is answered 500 with the route's generic error
    message, while the same login naming the unknown ["eve"] is answered 401
    with the invalid-credentials message, in both variants: [bcrypt.compare]
    is reached, and throws, only once the user has been found.  Neither
    request changes the server or sets a cookie. *)
Theorem login_without_password_tells_bob_from_eve :
  app Part001File Sample.env0 Sample.withBob
    (mkRequest None PostLogin {["username" := JString "bob"]})
  = (Sample.withBob, mkReply (respond 500 (Message "Error logging in")) None)
  ∧ app Part001File Sample.env0 Sample.withBob
      (mkRequest None PostLogin {["username" := JString "eve"]})
    = (Sample.withBob,
       mkReply (respond 401 (Message "Invalid username or password")) None)
  ∧ app ServerJsFile Sample.env0 Sample.withBob
      (mkRequest None PostLogin {["username" := JString "bob"]})
    = (Sample.withBob, mkReply (respond 500 (Message "Viga sisselogimisel")) None)
  ∧ app ServerJsFile Sample.env0 Sample.withBob
      (mkRequest None PostLogin {["username" := JString "eve"]})
    = (Sample.withBob,
       mkReply (respond 401 (Message "Vale kasutajanimi või parool")) None).
Proof. split_and!; vm_compute; reflexivity. Qed.

(** ** Logout and what follows it *)

Section Logout.
Context `{Runtime}.

Lemma keepsStore_ret {A} (a : A) : keepsStore (mret a).
Proof. by intros ctx. Qed.

Lemma keepsStore_throw {A} e : keepsStore (@throw A e).
Proof. by intros ctx. Qed.

Lemma keepsStore_bind {A B} (m : Handler A) (k : A → Handler B) :
  keepsStore m → (∀ a, keepsStore (k a)) → keepsStore (m ≫= k).
Proof.
  intros Hm Hk ctx. unfold mbind, Handler_bind.
  destruct (Hm ctx) as [Hid Hst]. destruct (m ctx) as [ctx' [a|e]]; simpl in *.
  - destruct (Hk a ctx') as [Hid' Hst']. split; [congruence|auto].
  - done.
Qed.

Lemma keepsStore_try_catch {A} (m : Handler A) (h : Error → Handler A) :
  keepsStore m → (∀ e, keepsStore (h e)) → keepsStore (try_catch m h).
Proof.
  intros Hm Hh ctx. unfold try_catch.
  destruct (Hm ctx) as [Hid Hst]. destruct (m ctx) as [ctx' [a|e]]; simpl in *.
  - done.
  - destruct (Hh e ctx') as [Hid' Hst']. split; [congruence|auto].
Qed.

Lemma keepsStore_onUsers {A} (op : gmap N User.t → Completion (gmap N User.t * A)) :
  keepsStore (onUsers op).
Proof. intros ctx. unfold onUsers. by destruct (op _) as [[coll a]|e]. Qed.

Lemma keepsStore_onBuses {A} (op : gmap N Bus.t → Completion (gmap N Bus.t * A)) :
  keepsStore (onBuses op).
Proof. intros ctx. unfold onBuses. by destruct (op _) as [[coll a]|e]. Qed.

Lemma keepsStore_reqSession : keepsStore reqSession.
Proof. intros ctx. unfold reqSession. by destruct (session ctx). Qed.

Lemma keepsStore_setUserId id : keepsStore (setUserId id).
Proof. intros ctx. unfold setUserId. by destruct (session ctx). Qed.

Lemma keepsStore_setRole r : keepsStore (setRole r).
Proof. intros ctx. unfold setRole. by destruct (session ctx). Qed.

Lemma keepsStore_destroy : keepsStore destroy.
Proof.
  intros ctx. unfold destroy; simpl. split; [done|].
  intros sid Hs. by apply lookup_delete_None; right.
Qed.

Lemma keepsStore_bcryptHash salt data : keepsStore (bcryptHash salt data).
Proof. destruct data; simpl; auto using @keepsStore_ret, @keepsStore_throw. Qed.

Lemma keepsStore_bcryptCompare data encrypted :
  keepsStore (bcryptCompare data encrypted).
Proof. destruct data; simpl; auto using @keepsStore_ret, @keepsStore_throw. Qed.

Create HintDb store.

#[local] Hint Resolve keepsStore_ret keepsStore_throw keepsStore_onUsers
  keepsStore_onBuses keepsStore_reqSession keepsStore_setUserId keepsStore_setRole
  keepsStore_destroy keepsStore_bcryptHash keepsStore_bcryptCompare : store.

(** Walks a handler: binds, try blocks, branches. *)
Ltac keeps_store :=
  repeat first
    [ apply keepsStore_bind; [|intros ?]
    | apply keepsStore_try_catch; [|intros ?]
    | solve [auto with store]
    | match goal with
      | |- keepsStore (match ?x with _ => _ end) => destruct x
      | |- keepsStore (let _ := _ in _) => cbv zeta
      end ].

Lemma router_keepsStore v env req :
  keepsStore (match v with
              | ServerJsFile => ServerJs.router env req
              | Part001File => Part001.router env req
              end).
Proof.
  destruct v; unfold ServerJs.router, Part001.router; destruct (route req);
    unfold ServerJs.register, ServerJs.login, ServerJs.get_buses,
      ServerJs.post_buses, ServerJs.put_bus, ServerJs.delete_bus,
      ServerJs.authRequired, ServerJs.adminRequired,
      Part001.register, Part001.login, Part001.get_buses, Part001.logout,
      Part001.post_buses, Part001.put_bus, Part001.delete_bus,
      Part001.authRequired, Part001.adminRequired;
    keeps_store.
Qed.

(** A session id that the store does not hold stays out of it, as long as
    the request does not happen to mint that very id for a new session. *)
Lemma app_keeps_session_absent v env srv req sid :
  sessions srv !! sid = None → new_sid env ≠ sid →
  sessions (app v env srv req).1 !! sid = None.
Proof.
  intros Habs Hnew.
  assert (∀ router, keepsStore (router env req) →
            sessions (serve router env srv req).1 !! sid = None) as Hserve.
  { intros router Hk. unfold serve.
    destruct (loadSession (sessions srv) (cookie req) env) as [sid0 loaded] eqn:Hl.
    assert (sid0 ≠ sid) as Hsid0.
    { destruct (loadSession_fresh_or_stored (sessions srv) (cookie req) env)
        as [Hf|(c & _ & Hst & Hc)]; rewrite Hl in *; simpl in *.
      - unfold loadSession in Hl. destruct (cookie req) as [c|].
        + destruct (sessions srv !! c) eqn:Hc; [|congruence].
          injection Hl as <- _. congruence.
        + congruence.
      - subst c. congruence. }
    destruct (Hk (mkCtx srv sid0 (Some loaded))) as [Hid Hst]; simpl in *.
    destruct (router env req _) as [ctx c]; simpl in *.
    unfold saveSession. destruct (session ctx) as [s'|]; [|by apply Hst].
    case_bool_decide; simpl; [by apply Hst|].
    rewrite lookup_insert_ne by congruence. by apply Hst. }
  destruct v; apply Hserve.
  - apply (router_keepsStore ServerJsFile).
  - apply (router_keepsStore Part001File).
Qed.

Lemma run_keeps_session_absent v srv trace sid :
  sessions srv !! sid = None →
  Forall (λ er : Env * Request, new_sid er.1 ≠ sid) trace →
  sessions (run v srv trace) !! sid = None.
Proof.
  intros Habs Htrace. revert srv Habs.
  induction Htrace as [|[env req] rest Hnew _ IH]; intros srv Habs; simpl; [done|].
  apply IH. by apply app_keeps_session_absent.
Qed.

(** A mutating request whose cookie names no stored session gets a new,
    empty session, and [authRequired] turns it away. *)
Lemma absent_session_unauthenticated v env srv req sid :
  cookie req = Some sid → sessions srv !! sid = None →
  mutating (route req) = true →
  status (response (app v env srv req).2) = 401 ∧ (app v env srv req).1 = srv.
Proof.
  intros Hc Habs Hm.
  destruct v; unfold app, ServerJs.app, Part001.app, serve;
    rewrite Hc, (loadSession_missing _ _ _ Habs).
  - destruct (serverjs_router_guarded env req Hm) as [h ->].
    erewrite serverjs_authRequired_reject by (simpl; eauto).
    by rewrite saveSession_unchanged.
  - destruct (part001_router_guarded env req Hm) as [h ->].
    erewrite part001_authRequired_reject by (simpl; eauto).
    by rewrite saveSession_unchanged.
Qed.

(** The logout route of [src/unnamed/part_001]. *)
Lemma logout_outcome env srv req sid :
  route req = PostLogout → cookie req = Some sid →
  response (Part001.app env srv req).2 = respond 200 (Message "Logout successful")
  ∧ set_cookie (Part001.app env srv req).2 = None
  ∧ sessions (Part001.app env srv req).1 !! sid = None
  ∧ users (Part001.app env srv req).1 = users srv
  ∧ buses (Part001.app env srv req).1 = buses srv.
Proof.
  intros Hr Hc. unfold Part001.app, serve, loadSession. rewrite Hc.
  destruct (sessions srv !! sid) as [s|] eqn:Hs;
    unfold Part001.router; rewrite Hr;
    unfold Part001.logout, mbind, Handler_bind, destroy; simpl;
    split_and!; try done.
  - apply lookup_delete_eq.
  - by apply lookup_delete_None; right.
Qed.

(** C5. In [src/unnamed/part_001] a logout is answered 200 and removes the
    session named by the request's cookie from the store, whatever role it
    held.  From then on, through any further requests (none of which mints
    that same id for a new session), a create, update or delete request
    carrying that cookie is answered 401 and changes nothing. *)
Theorem logout_then_unauthenticated env srv reqOut sid trace env' req' :
  route reqOut = PostLogout → cookie reqOut = Some sid →
  Forall (λ er : Env * Request, new_sid er.1 ≠ sid) trace →
  cookie req' = Some sid → mutating (route req') = true →
  status (response (app Part001File env srv reqOut).2) = 200
  ∧ sessions (app Part001File env srv reqOut).1 !! sid = None
  ∧ status (response
      (app Part001File env'
         (run Part001File (app Part001File env srv reqOut).1 trace) req').2) = 401
  ∧ (app Part001File env'
       (run Part001File (app Part001File env srv reqOut).1 trace) req').1
    = run Part001File (app Part001File env srv reqOut).1 trace.
Proof.
  intros Hr Hc Htrace Hc' Hm.
  destruct (logout_outcome env srv reqOut sid Hr Hc) as (Hresp & _ & Hgone & _).
  change (Part001.app env srv reqOut) with (app Part001File env srv reqOut)
    in Hresp, Hgone.
  destruct (absent_session_unauthenticated Part001File env'
              (run Part001File (app Part001File env srv reqOut).1 trace) req' sid
              Hc' (run_keeps_session_absent _ _ _ _ Hgone Htrace) Hm)
    as [H401 Hsame].
  split_and!; [by rewrite Hresp | done | done | done].
Qed.
End Logout.

(** C5, instantiated: the administrator of the sample server logs out, a
    registration follows, and the old cookie no longer opens the create
    route. *)
Lemma logout_then_unauthenticated_witness :
  sessions Sample.withSessions !! "adm" = Some Sample.adminSession
  ∧ status (response
      (app Part001File Sample.env0
         (run Part001File
            (app Part001File Sample.env0 Sample.withSessions
               (mkRequest (Some "adm") PostLogout ∅)).1
            [(Sample.env1, mkRequest (Some "adm") PostRegister Sample.bobBody)])
         (mkRequest (Some "adm") PostBuses Sample.completeBus)).2) = 401.
Proof.
  split; [vm_compute; reflexivity|].
  apply (logout_then_unauthenticated Sample.env0 Sample.withSessions
           (mkRequest (Some "adm") PostLogout ∅) "adm"
           [(Sample.env1, mkRequest (Some "adm") PostRegister Sample.bobBody)]
           Sample.env0 (mkRequest (Some "adm") PostBuses Sample.completeBus)).
  - reflexivity.
  - reflexivity.
  - apply Forall_cons; split; [discriminate | apply Forall_nil; exact I].
  - reflexivity.
  - reflexivity.
Defined.

(** C4, instantiated: the ["user"] session of the sample server is refused
    the create route with 403. *)
Lemma non_admin_session_forbidden_witness :
  status (response (app ServerJsFile Sample.env0 Sample.withSessions
            (mkRequest (Some "usr") PostBuses Sample.completeBus)).2) = 403
  ∧ (app ServerJsFile Sample.env0 Sample.withSessions
       (mkRequest (Some "usr") PostBuses Sample.completeBus)).1 = Sample.withSessions.
Proof.
  apply (non_admin_session_forbidden ServerJsFile Sample.env0 Sample.withSessions
           (mkRequest (Some "usr") PostBuses Sample.completeBus)
           "usr" Sample.userSession).
  - reflexivity.
  - vm_compute; reflexivity.
  - by eexists.
  - discriminate.
  - reflexivity.
Defined.

(** * Further properties of the routes *)

Section Frames.
Context `{Runtime}.

Lemma app_serve v : app v = serve (router v).
Proof. by destruct v. Qed.

Lemma frames_bind {A B} (R : relation Ctx) `{!Transitive R}
    (m : Handler A) (k : A → Handler B) :
  frames R m → (∀ a, frames R (k a)) → frames R (m ≫= k).
Proof.
  intros Hm Hk ctx. unfold mbind, Handler_bind.
  pose proof (Hm ctx) as H1. destruct (m ctx) as [ctx' [a|e]]; simpl in *; [|done].
  etrans; [exact H1|apply Hk].
Qed.

Lemma frames_try_catch {A} (R : relation Ctx) `{!Transitive R}
    (m : Handler A) (h : Error → Handler A) :
  frames R m → (∀ e, frames R (h e)) → frames R (try_catch m h).
Proof.
  intros Hm Hh ctx. unfold try_catch.
  pose proof (Hm ctx) as H1. destruct (m ctx) as [ctx' [a|e]]; simpl in *; [done|].
  etrans; [exact H1|apply Hh].
Qed.

Lemma answers_bind {A} P (m : Handler A) (k : A → Handler Response) :
  (∀ a, answers P (k a)) → answers P (m ≫= k).
Proof.
  intros Hk ctx. unfold mbind, Handler_bind.
  destruct (m ctx) as [ctx' [a|e]]; simpl; [apply Hk|done].
Qed.

Lemma answers_try_catch P (m : Handler Response) (h : Error → Handler Response) :
  answers P m → (∀ e, answers P (h e)) → answers P (try_catch m h).
Proof.
  intros Hm Hh ctx. unfold try_catch.
  pose proof (Hm ctx) as H1. destruct (m ctx) as [ctx' [a|e]]; simpl in *; [done|].
  apply Hh.
Qed.

Lemma answers_ret (P : Response → Prop) r : P r → answers P (mret r).
Proof. by intros Hr ctx. Qed.

(** A [catch] block that only answers turns any handler into one that
    returns. *)
Lemma returns_try_catch (m : Handler Response) r :
  returns (try_catch m (λ _, mret r)).
Proof.
  intros ctx _. unfold try_catch.
  destruct (m ctx) as [ctx' [a|e]]; simpl; eauto.
Qed.

Lemma part001_authRequired_returns next :
  returns next → returns (Part001.authRequired next).
Proof.
  intros Hn ctx [s Hs]. unfold Part001.authRequired, mbind, Handler_bind, reqSession.
  rewrite Hs. destruct (negb _); [by eexists|]. apply Hn. by eexists.
Qed.

Lemma part001_adminRequired_returns next :
  returns next → returns (Part001.adminRequired next).
Proof.
  intros Hn ctx [s Hs]. unfold Part001.adminRequired, mbind, Handler_bind, reqSession.
  rewrite Hs. destruct (bool_decide _); [by eexists|]. apply Hn. by eexists.
Qed.

Lemma serverjs_authRequired_returns next :
  returns next → returns (ServerJs.authRequired next).
Proof.
  intros Hn ctx [s Hs]. unfold ServerJs.authRequired, mbind, Handler_bind, reqSession.
  rewrite Hs. destruct (negb _); [by eexists|]. apply Hn. by eexists.
Qed.

Lemma serverjs_adminRequired_returns next :
  returns next → returns (ServerJs.adminRequired next).
Proof.
  intros Hn ctx [s Hs]. unfold ServerJs.adminRequired, mbind, Handler_bind, reqSession.
  rewrite Hs. destruct (_ || _); [by eexists|]. apply Hn. by eexists.
Qed.

Lemma router_returns v env req : returns (router v env req).
Proof.
  destruct v; unfold router, ServerJs.router, Part001.router; destruct (route req);
    unfold ServerJs.register, ServerJs.login, ServerJs.get_buses,
      ServerJs.post_buses, ServerJs.put_bus, ServerJs.delete_bus,
      Part001.register, Part001.login, Part001.get_buses, Part001.logout,
      Part001.post_buses, Part001.put_bus, Part001.delete_bus;
    try apply returns_try_catch;
    try (apply serverjs_authRequired_returns, serverjs_adminRequired_returns,
           returns_try_catch);
    try (apply part001_authRequired_returns, part001_adminRequired_returns,
           returns_try_catch);
    intros ctx _; by eexists.
Qed.

(** Unfolding [serve]: the router runs on the loaded session, and the
    session is saved afterwards. *)
Lemma serve_unfold rt env srv req :
  serve rt env srv req
  = let l := loadSession (sessions srv) (cookie req) env in
    let out := rt env req (mkCtx srv l.1 (Some l.2)) in
    ((saveSession l.2 out.1).1,
     mkReply (match out.2 with
              | Normal r => r
              | Thrown _ => respond 500 ErrorPage
              end) (saveSession l.2 out.1).2).
Proof.
  unfold serve. destruct (loadSession _ _ _) as [sid0 loaded]; simpl.
  destruct (rt env req _) as [ctx c]; simpl.
  by destruct (saveSession loaded ctx).
Qed.

Lemma saveSession_users loaded ctx :
  users (saveSession loaded ctx).1 = users (server ctx).
Proof.
  unfold saveSession. destruct (session ctx); [|done]. by case_bool_decide.
Qed.

Lemma saveSession_buses loaded ctx :
  buses (saveSession loaded ctx).1 = buses (server ctx).
Proof.
  unfold saveSession. destruct (session ctx); [|done]. by case_bool_decide.
Qed.

Lemma saveSession_untouched loaded ctx :
  session ctx = Some loaded ∨ session ctx = None →
  saveSession loaded ctx = (server ctx, None).
Proof.
  unfold saveSession. intros [->| ->]; [|done]. by case_bool_decide.
Qed.
End Frames.

(** Walks a handler down to its primitive steps. *)
Ltac walk Htrans :=
  repeat first
    [ apply (@frames_bind _ _ _ Htrans); [|intros ?]
    | apply (@frames_try_catch _ _ Htrans); [|intros ?]
    | match goal with
      | |- frames _ (match ?x with _ => _ end) => destruct x
      | |- frames _ (let _ := _ in _) => cbv zeta
      end ].

(** Runs one primitive step. *)
Ltac step :=
  let ctx := fresh "ctx" in
  intros ctx;
  unfold mret, Handler_ret, throw, reqSession, setUserId, setRole, destroy,
    onUsers, onBuses, bcryptHash, bcryptCompare;
  repeat case_match; simplify_eq; simpl.

Ltac unfold_routes :=
  unfold router, ServerJs.router, Part001.router;
  match goal with |- context [route ?req] => destruct (route req) eqn:? end;
  unfold ServerJs.register, ServerJs.login, ServerJs.get_buses,
    ServerJs.post_buses, ServerJs.put_bus, ServerJs.delete_bus,
    ServerJs.authRequired, ServerJs.adminRequired,
    Part001.register, Part001.login, Part001.get_buses, Part001.logout,
    Part001.post_buses, Part001.put_bus, Part001.delete_bus,
    Part001.authRequired, Part001.adminRequired.

Section WhoChangesWhat.
Context `{Runtime}.

Lemma sameBuses_trans : Transitive sameBuses.
Proof. intros c1 c2 c3. unfold sameBuses. congruence. Qed.

Lemma sameUsers_trans : Transitive sameUsers.
Proof. intros c1 c2 c3. unfold sameUsers. congruence. Qed.

Lemma sessionUntouched_trans : Transitive sessionUntouched.
Proof. intros c1 c2 c3. unfold sessionUntouched. intros [?|?] [?|?]; intuition congruence. Qed.

Lemma sameSessions_trans : Transitive sameSessions.
Proof. intros c1 c2 c3. unfold sameSessions. intros [? ?] [? ?]. split; congruence. Qed.

(** Only the three guarded routes reach the bus collection for writing. *)
Lemma router_sameBuses v env req :
  mutating (route req) = false → frames sameBuses (router v env req).
Proof.
  intros Hm. destruct v; unfold_routes; try discriminate;
    walk sameBuses_trans; step; by unfold sameBuses.
Qed.

(** Only the registration route writes to the user collection. *)
Lemma router_sameUsers v env req :
  route req ≠ PostRegister → frames sameUsers (router v env req).
Proof.
  intros Hr. destruct v; unfold_routes; try done;
    walk sameUsers_trans; step; by unfold sameUsers.
Qed.

(** Only registration and login assign to [req.session]. *)
Lemma router_sessionUntouched v env req :
  route req ≠ PostRegister → route req ≠ PostLogin →
  frames sessionUntouched (router v env req).
Proof.
  intros Hr Hl. destruct v; unfold_routes; try done;
    walk sessionUntouched_trans; step; unfold sessionUntouched; simpl; auto.
Qed.

(** Only logout writes to the session store from inside a handler. *)
Lemma router_sameSessions v env req :
  (v = Part001File → route req ≠ PostLogout) →
  frames sameSessions (router v env req).
Proof.
  intros Hr. destruct v; unfold_routes; try (by destruct Hr);
    walk sameSessions_trans; step; by unfold sameSessions.
Qed.
End WhoChangesWhat.

Section Access.
Context `{Runtime}.

(** What the two guards do to a mutating request whose session is not an
    administrator's. *)
Lemma guards_turn_away v env srv req :
  mutating (route req) = true →
  ¬ isAdmin (requestSession srv req env) →
  app v env srv req
  = (srv,
     mkReply
       (if bool_decide (is_Some (Session.userId (requestSession srv req env)))
        then respond 403 (Message
               (match v with
                | ServerJsFile => "Juurdepääs keelatud. Vajalik administraatori roll."
                | Part001File => "Admin access required"
                end))
        else respond 401 (Message
               (match v with
                | ServerJsFile => "Autentimine on vajalik"
                | Part001File => "Authentication required"
                end)))
       None).
Proof.
  intros Hm Hna. rewrite app_serve, serve_unfold. unfold requestSession in *.
  destruct (loadSession (sessions srv) (cookie req) env) as [sid0 loaded]; simpl in *.
  case_bool_decide as Hu.
  - assert (Session.role loaded ≠ Some "admin") as Hr.
    { intros Hr. apply Hna. by split. }
    destruct v; unfold router.
    + destruct (serverjs_router_guarded env req Hm) as [h ->].
      erewrite serverjs_authRequired_pass by (simpl; eauto).
      erewrite serverjs_adminRequired_reject by (simpl; eauto).
      simpl. by rewrite saveSession_unchanged.
    + destruct (part001_router_guarded env req Hm) as [h ->].
      erewrite part001_authRequired_pass by (simpl; eauto).
      erewrite part001_adminRequired_reject by (simpl; eauto).
      simpl. by rewrite saveSession_unchanged.
  - assert (Session.userId loaded = None) as Hn.
    { destruct (Session.userId loaded); [|done]. destruct Hu. by eexists. }
    destruct v; unfold router.
    + destruct (serverjs_router_guarded env req Hm) as [h ->].
      erewrite serverjs_authRequired_reject by (simpl; eauto).
      simpl. by rewrite saveSession_unchanged.
    + destruct (part001_router_guarded env req Hm) as [h ->].
      erewrite part001_authRequired_reject by (simpl; eauto).
      simpl. by rewrite saveSession_unchanged.
Qed.

(** X1. [authRequired] comes first: a create, update or delete request whose
    session has no [userId] (no cookie, a cookie the store does not know, or
    a stored session without a user, whatever role it claims) is answered
    401, gets no cookie and changes nothing. *)
Theorem unauthenticated_request_401 v env srv req :
  mutating (route req) = true →
  Session.userId (requestSession srv req env) = None →
  status (response (app v env srv req).2) = 401
  ∧ set_cookie (app v env srv req).2 = None
  ∧ (app v env srv req).1 = srv.
Proof.
  intros Hm Hu. rewrite (guards_turn_away v env srv req Hm).
  - rewrite Hu. by case_bool_decide as Hd; [destruct Hd|].
  - intros [[u Hs] _]. congruence.
Qed.

(** X2. The bus collection changes only at the hands of an administrator:
    whatever the route and the payload, a request whose session is not an
    administrator's leaves every bus as it was. *)
Theorem buses_change_only_for_admin v env srv req :
  ¬ isAdmin (requestSession srv req env) →
  buses (app v env srv req).1 = buses srv.
Proof.
  intros Hna. destruct (mutating (route req)) eqn:Hm.
  - by rewrite (guards_turn_away v env srv req Hm Hna).
  - rewrite app_serve, serve_unfold; simpl. rewrite saveSession_buses.
    apply (router_sameBuses v env req Hm).
Qed.

(** X3. The user collection changes only through the registration route. *)
Theorem users_change_only_by_register v env srv req :
  route req ≠ PostRegister →
  users (app v env srv req).1 = users srv.
Proof.
  intros Hr. rewrite app_serve, serve_unfold; simpl. rewrite saveSession_users.
  apply (router_sameUsers v env req Hr).
Qed.

(** X4. Only registration and login hand out a session cookie: any other
    request is answered without one, and, the logout route apart, leaves the
    session store as it was. *)
Theorem cookie_only_from_register_or_login v env srv req :
  route req ≠ PostRegister → route req ≠ PostLogin →
  set_cookie (app v env srv req).2 = None
  ∧ (route req ≠ PostLogout → sessions (app v env srv req).1 = sessions srv).
Proof.
  intros Hr Hl. rewrite app_serve, serve_unfold; simpl.
  pose proof (router_sessionUntouched v env req Hr Hl
                (mkCtx srv (loadSession (sessions srv) (cookie req) env).1
                       (Some (loadSession (sessions srv) (cookie req) env).2))) as Hs.
  unfold sessionUntouched in Hs; simpl in Hs.
  rewrite (saveSession_untouched _ _ Hs); simpl. split; [done|].
  intros Ho. apply (router_sameSessions v env req). by intros _.
Qed.

(** X5. [src/server.js] has no route that ends a session: through any
    sequence of requests, a session id the store holds stays in the store. *)
Theorem serverjs_never_ends_a_session srv trace sid :
  is_Some (sessions srv !! sid) →
  is_Some (sessions (run ServerJsFile srv trace) !! sid).
Proof.
  revert srv. induction trace as [|[env req] rest IH]; intros srv Hs; simpl; [done|].
  apply IH. change ServerJs.app with (app ServerJsFile).
  rewrite app_serve, serve_unfold. cbv zeta.
  set (ctx0 := mkCtx srv (loadSession (sessions srv) (cookie req) env).1
                 (Some (loadSession (sessions srv) (cookie req) env).2)).
  destruct (router_sameSessions ServerJsFile env req ltac:(done) ctx0) as [Hst Hid].
  destruct (router ServerJsFile env req ctx0) as [ctx c]; simpl in *.
  unfold saveSession. destruct (session ctx); simpl; [|by rewrite Hst].
  case_bool_decide; simpl; [by rewrite Hst|]. rewrite Hst.
  destruct (decide (sessionID ctx = sid)) as [->|Hne].
  - rewrite lookup_insert_eq. by eexists.
  - by rewrite lookup_insert_ne.
Qed.

(** X6. The logout route of [src/unnamed/part_001] needs no session: with
    any cookie or none it is answered 200 without a cookie, it removes the
    request's own session id from the store and nothing else, and it leaves
    users and buses alone. *)
Theorem logout_removes_only_own_session env srv req :
  route req = PostLogout →
  response (app Part001File env srv req).2
  = respond 200 (Message "Logout successful")
  ∧ set_cookie (app Part001File env srv req).2 = None
  ∧ sessions (app Part001File env srv req).1
    = delete (loadSession (sessions srv) (cookie req) env).1 (sessions srv)
  ∧ users (app Part001File env srv req).1 = users srv
  ∧ buses (app Part001File env srv req).1 = buses srv.
Proof.
  intros Hr. rewrite app_serve, serve_unfold; simpl.
  unfold Part001.router. rewrite Hr.
  by unfold Part001.logout, mbind, Handler_bind, destroy.
Qed.
End Access.

Section BusCollection.
Context `{Runtime}.

(** X7. The list route is open to everyone and read-only: with any cookie
    or none it is answered 200 with exactly the stored buses, each id once,
    sets no cookie and changes nothing. *)
Theorem list_returns_stored_buses v env srv req :
  route req = GetBuses →
  ∃ l, response (app v env srv req).2 = respond 200 (BusArray l)
       ∧ (∀ i doc, (i, doc) ∈ l ↔ buses srv !! i = Some doc)
       ∧ NoDup l.*1
       ∧ set_cookie (app v env srv req).2 = None
       ∧ (app v env srv req).1 = srv.
Proof.
  intros Hr. rewrite (list_outcome v env srv req Hr); simpl.
  exists (Bus.find (buses srv)). split_and!; try done.
  - intros i doc. unfold Bus.find. apply elem_of_map_to_list.
  - apply NoDup_fst_map_to_list.
Qed.

(** X8. Deleting as an administrator.  The answer is 500 exactly when the
    id does not parse as an ObjectId, and 200 exactly when it parses to the
    id of a stored bus (404 is what remains); any answer but 200 changes
    nothing; a delete removes the bus with that id and touches no other bus,
    no user and no session. *)
Theorem delete_outcome_by_id v env srv req sid s id :
  cookie req = Some sid → sessions srv !! sid = Some s → isAdmin s →
  route req = DeleteBus id →
  (status (response (app v env srv req).2) = 500 ↔ castObjectId id = None)
  ∧ (status (response (app v env srv req).2) = 200
     ↔ ∃ i, castObjectId id = Some i ∧ is_Some (buses srv !! i))
  ∧ (status (response (app v env srv req).2) ∈ [200; 404; 500])
  ∧ (status (response (app v env srv req).2) ≠ 200 → (app v env srv req).1 = srv)
  ∧ (∀ i, castObjectId id = Some i → buses (app v env srv req).1 !! i = None)
  ∧ (∀ j, castObjectId id ≠ Some j →
          buses (app v env srv req).1 !! j = buses srv !! j)
  ∧ users (app v env srv req).1 = users srv
  ∧ sessions (app v env srv req).1 = sessions srv.
Proof.
  intros Hc Hs Ha Hr.
  rewrite (delete_outcome v env srv req sid s id Hc Hs Ha Hr).
  unfold Bus.findByIdAndDelete.
  destruct (castObjectId id) as [i|] eqn:Hi; [destruct (buses srv !! i) eqn:Hb|];
    simpl.
  - split_and!.
    + by destruct v.
    + split; [eauto|done].
    + set_solver.
    + done.
    + intros i' [= <-]. apply lookup_delete_eq.
    + intros j Hj. apply lookup_delete_ne. congruence.
    + done.
    + done.
  - split_and!.
    + by destruct v.
    + split; [done|]. intros (i' & [= <-] & [? ?]). congruence.
    + set_solver.
    + intros _. apply withBuses_same.
    + intros i' [= <-]. done.
    + done.
    + done.
    + done.
  - split_and!; try done.
    + split; [done|]. by intros (i' & ? & _).
    + set_solver.
Qed.

(** X9. Updating as an administrator never creates a record and never
    touches another one: the set of stored ids is unchanged, every bus under
    another id is unchanged, users and sessions are unchanged, and any
    answer but 200 changes nothing at all. *)
Theorem update_touches_one_record v env srv req sid s id :
  cookie req = Some sid → sessions srv !! sid = Some s → isAdmin s →
  route req = PutBus id →
  dom (buses (app v env srv req).1) = dom (buses srv)
  ∧ (∀ j, castObjectId id ≠ Some j →
          buses (app v env srv req).1 !! j = buses srv !! j)
  ∧ (status (response (app v env srv req).2) ≠ 200 → (app v env srv req).1 = srv)
  ∧ (status (response (app v env srv req).2) ∈ [200; 404; 500])
  ∧ users (app v env srv req).1 = users srv
  ∧ sessions (app v env srv req).1 = sessions srv.
Proof.
  intros Hc Hs Ha Hr.
  rewrite (update_outcome v env srv req sid s id Hc Hs Ha Hr).
  unfold Bus.findByIdAndUpdate.
  destruct (castObjectId id) as [i|] eqn:Hi; [|split_and!; try done; set_solver].
  destruct (Bus.castFails _); [split_and!; try done; set_solver|].
  destruct (_ && _); [split_and!; try done; set_solver|].
  destruct (buses srv !! i) as [doc|] eqn:Hb; simpl.
  - split_and!; try done.
    + apply dom_insert_lookup_L. by eexists.
    + intros j Hj. apply lookup_insert_ne. congruence.
    + set_solver.
  - split_and!; try done.
    + intros _. apply withBuses_same.
    + set_solver.
Qed.

(** X10. Creating as an administrator with a well-formed payload (five
    non-empty strings and a number of seats, which [src/server.js] also
    wants non-zero): the answer is 201 with the record under the minted id,
    holding exactly the submitted values, and that record is stored. *)
Theorem create_well_formed_201 v env srv req sid s b n r dp ds dt :
  cookie req = Some sid → sessions srv !! sid = Some s → isAdmin s →
  route req = PostBuses →
  Bus.destructure (body req)
  = Bus.mkFields (JString b) (JNumber n) (JString r) (JString dp) (JString ds)
      (JString dt) →
  b ≠ "" → r ≠ "" → dp ≠ "" → ds ≠ "" → dt ≠ "" →
  (v = ServerJsFile → n ≠ 0%Z) →
  buses srv !! new_oid env = None →
  let doc := Bus.mk (Some b) (Some n) (Some r) (Some dp) (Some ds) (Some dt) in
  status (response (app v env srv req).2) = 201
  ∧ (∃ m, json (response (app v env srv req).2) = MessageBus m (new_oid env, doc))
  ∧ (app v env srv req).1 = withBuses srv (<[new_oid env := doc]> (buses srv)).
Proof.
  intros Hc Hs Ha Hr Hf Hb Hrt Hdp Hds Hdt Hn Hfree doc.
  assert (Bus.save (new_oid env) (Bus.destructure (body req)) (buses srv)
          = Normal (<[new_oid env := doc]> (buses srv), (new_oid env, doc))) as Hsave.
  { unfold Bus.save, Bus.validate, Bus.cast. rewrite Hf; simpl.
    unfold nonempty. repeat (case_bool_decide; [done|]); simpl. by rewrite Hfree. }
  destruct v; simpl.
  - rewrite (serverjs_create_outcome env srv req sid s) by done.
    assert (ServerJs.someFalsy (Bus.destructure (body req)) = false) as ->.
    { rewrite Hf. unfold ServerJs.someFalsy, falsy; simpl.
      repeat (case_bool_decide; [done|]); simpl.
      destruct (Z.eqb_spec n 0); [by destruct Hn|done]. }
    rewrite Hsave. split_and!; [done|by eexists|done].
  - rewrite (part001_create_outcome env srv req sid s) by done.
    rewrite Hsave. split_and!; [done|by eexists|done].
Qed.

(** X11. Creating as an administrator adds at most one record, under the
    minted id: every bus under another id is unchanged, users and sessions
    are unchanged, and any answer but 201 changes nothing at all. *)
Theorem create_adds_one_record v env srv req sid s :
  cookie req = Some sid → sessions srv !! sid = Some s → isAdmin s →
  route req = PostBuses →
  (∀ j, j ≠ new_oid env → buses (app v env srv req).1 !! j = buses srv !! j)
  ∧ (status (response (app v env srv req).2) ≠ 201 → (app v env srv req).1 = srv)
  ∧ (status (response (app v env srv req).2) ∈ [201; 400; 500])
  ∧ users (app v env srv req).1 = users srv
  ∧ sessions (app v env srv req).1 = sessions srv.
Proof.
  intros Hc Hs Ha Hr.
  assert (∀ c : Completion (gmap N Bus.t * (N * Bus.t)),
            c = Bus.save (new_oid env) (Bus.destructure (body req)) (buses srv) →
            match c with
            | Normal (coll, _) =>
                ∀ j, j ≠ new_oid env → coll !! j = buses srv !! j
            | Thrown _ => True
            end) as Hsave.
  { intros c ->. unfold Bus.save. destruct (Bus.validate _); [|done].
    destruct (buses srv !! new_oid env); [done|].
    intros j Hj. by apply lookup_insert_ne. }
  specialize (Hsave _ eq_refl).
  destruct v; simpl.
  - rewrite (serverjs_create_outcome env srv req sid s) by done.
    destruct (ServerJs.someFalsy _); [by split_and!; try set_solver|].
    destruct (Bus.save _ _ _) as [[coll bus]|e]; simpl;
      split_and!; try done; set_solver.
  - rewrite (part001_create_outcome env srv req sid s) by done.
    destruct (Bus.save _ _ _) as [[coll bus]|e]; simpl;
      split_and!; try done; set_solver.
Qed.

(** X12. Without [runValidators] an update can empty a required field.  An
    administrator's update of a stored bus that sets [seats] to [null] (and
    whose other values cast) is answered 200 by [src/unnamed/part_001], which
    stores [null]; [src/server.js], which runs the update validators,
    answers 500 and changes nothing. *)
Theorem update_with_null_seats v env srv req sid s id i doc :
  cookie req = Some sid → sessions srv !! sid = Some s → isAdmin s →
  route req = PutBus id →
  castObjectId id = Some i →
  buses srv !! i = Some doc →
  prop (body req) "seats" = JNull →
  Bus.castFails (Bus.cast (Bus.destructure (body req))) = false →
  match v with
  | Part001File =>
      status (response (app v env srv req).2) = 200
      ∧ ∃ doc', buses (app v env srv req).1 !! i = Some doc' ∧ Bus.seats doc' = None
  | ServerJsFile =>
      status (response (app v env srv req).2) = 500 ∧ (app v env srv req).1 = srv
  end.
Proof.
  intros Hc Hs Ha Hr Hi Hdoc Hnull Hcf.
  rewrite (update_outcome v env srv req sid s id Hc Hs Ha Hr).
  unfold Bus.findByIdAndUpdate. rewrite Hi, Hcf, Hdoc.
  destruct v; simpl.
  - assert (Bus.updateValid (Bus.cast (Bus.destructure (body req))) = false) as ->;
      [|done].
    unfold Bus.updateValid, Bus.cast, Bus.destructure; simpl. rewrite Hnull; simpl.
    by rewrite andb_false_r.
  - split; [done|]. eexists. split; [apply lookup_insert_eq|].
    unfold Bus.applyUpdate, Bus.cast, Bus.destructure; simpl. by rewrite Hnull.
Qed.
End BusCollection.

Section Invariants.
Context `{Runtime}.

Lemma keepsPopulated_trans : Transitive keepsPopulated.
Proof. intros c1 c2 c3. unfold keepsPopulated. auto. Qed.

Lemma usersKept_trans : Transitive usersKept.
Proof. intros c1 c2 c3. unfold usersKept. auto. Qed.

Lemma keepsUnique_trans : Transitive keepsUnique.
Proof. intros c1 c2 c3. unfold keepsUnique. auto. Qed.

Lemma validate_populated f doc :
  Bus.validate (Bus.cast f) = Some doc → populated doc.
Proof.
  unfold Bus.validate, Bus.cast; simpl. intros Hv.
  destruct (requiredString (castString (Bus.f_busNumber f))) as [b|] eqn:E1;
    [|done]; simpl in Hv.
  destruct (requiredNumber (castNumber (Bus.f_seats f))) as [n|] eqn:E2;
    [|done]; simpl in Hv.
  destruct (requiredString (castString (Bus.f_route f))) as [r|] eqn:E3;
    [|done]; simpl in Hv.
  destruct (requiredString (castString (Bus.f_departurePoint f))) as [dp|] eqn:E4;
    [|done]; simpl in Hv.
  destruct (requiredString (castString (Bus.f_destinationPoint f))) as [ds|] eqn:E5;
    [|done]; simpl in Hv.
  destruct (requiredString (castString (Bus.f_departureTime f))) as [dt|] eqn:E6;
    [|done]; simpl in Hv.
  injection Hv as <-.
  apply requiredString_Some in E1 as [_ ?], E3 as [_ ?], E4 as [_ ?],
    E5 as [_ ?], E6 as [_ ?].
  unfold populated, populatedString; simpl. split_and!; eauto.
Qed.

Lemma save_populated id f coll coll' d :
  Bus.save id f coll = Normal (coll', d) → allPopulated coll → allPopulated coll'.
Proof.
  unfold Bus.save. destruct (Bus.validate _) as [doc|] eqn:Hv; [|done].
  destruct (coll !! id); [done|]. intros [= <- <-] Hall i doc' Hi.
  destruct (decide (id = i)) as [->|Hne].
  - rewrite lookup_insert_eq in Hi. injection Hi as <-. by eapply validate_populated.
  - rewrite lookup_insert_ne in Hi by done. by eapply Hall.
Qed.

Lemma setPath_populatedString c old :
  updateValidString c = true → populatedString old →
  populatedString (setPath c old).
Proof.
  destruct c as [| |s|]; simpl; try done.
  intros Hv _. exists s. split; [done|]. intros ->. discriminate.
Qed.

Lemma setPath_number c old :
  updateValidNumber c = true → is_Some old → is_Some (setPath c old).
Proof. destruct c; simpl; try done; by eexists. Qed.

Lemma applyUpdate_populated p doc :
  Bus.updateValid p = true → populated doc → populated (Bus.applyUpdate p doc).
Proof.
  unfold Bus.updateValid, populated, Bus.applyUpdate; simpl.
  rewrite !andb_true_iff. intros [[[[[? ?] ?] ?] ?] ?] (? & ? & ? & ? & ? & ?).
  split_and!; auto using setPath_populatedString, setPath_number.
Qed.

Lemma update_populated id f coll coll' d :
  Bus.findByIdAndUpdate id f true coll = Normal (coll', d) →
  allPopulated coll → allPopulated coll'.
Proof.
  unfold Bus.findByIdAndUpdate. destruct (castObjectId id) as [i|]; [|done].
  destruct (Bus.castFails _); [done|].
  destruct (Bus.updateValid _) eqn:Hv; [|done]; simpl.
  destruct (coll !! i) as [doc|] eqn:Hi; intros [= <- <-] Hall; [|done].
  intros j doc' Hj. destruct (decide (i = j)) as [->|Hne].
  - rewrite lookup_insert_eq in Hj. injection Hj as <-.
    apply applyUpdate_populated; [done|]. by eapply Hall.
  - rewrite lookup_insert_ne in Hj by done. by eapply Hall.
Qed.

Lemma delete_populated id coll coll' d :
  Bus.findByIdAndDelete id coll = Normal (coll', d) →
  allPopulated coll → allPopulated coll'.
Proof.
  unfold Bus.findByIdAndDelete. destruct (castObjectId id) as [i|]; [|done].
  destruct (coll !! i) as [doc|] eqn:Hi; intros [= <- <-] Hall; [|done].
  intros j doc' Hj. apply lookup_delete_Some in Hj as [_ Hj]. by eapply Hall.
Qed.

Lemma serverjs_router_keepsPopulated env req :
  frames keepsPopulated (ServerJs.router env req).
Proof.
  unfold_routes; walk keepsPopulated_trans; step; unfold keepsPopulated; simpl;
    eauto using save_populated, update_populated, delete_populated.
Qed.

(** X13. [src/server.js] keeps the bus collection within [busSchema]: if
    every stored bus has its five strings non-empty and its seats a number,
    so has every stored bus after any sequence of requests. *)
Theorem serverjs_buses_stay_populated srv trace :
  allPopulated (buses srv) →
  allPopulated (buses (run ServerJsFile srv trace)).
Proof.
  revert srv. induction trace as [|[env req] rest IH]; intros srv Hall; simpl; [done|].
  apply IH. unfold ServerJs.app. rewrite serve_unfold; simpl.
  rewrite saveSession_buses.
  by apply (serverjs_router_keepsPopulated env req).
Qed.

(** What a successful [save()] of a user did. *)
Lemma save_inserts id username password role coll coll' d :
  User.save id username password role coll = Normal (coll', d) →
  coll !! id = None
  ∧ (∀ j u, coll !! j = Some u → User.username u ≠ User.username d.2)
  ∧ coll' = <[id := d.2]> coll
  ∧ d.1 = id.
Proof.
  unfold User.save. destruct (User.validate _ _ _) as [doc|]; [|done].
  destruct (coll !! id) eqn:Hid; [done|].
  destruct (list_find _ _) eqn:Hf; [done|]. intros [= <- <-]; simpl.
  split_and!; try done. by apply find_user_None.
Qed.

Lemma router_usersKept v env req : frames usersKept (router v env req).
Proof.
  destruct v; unfold_routes; walk usersKept_trans; step; unfold usersKept; simpl;
    try done;
    match goal with
    | Hs : User.save _ _ _ _ _ = Normal _ |- _ =>
        apply save_inserts in Hs as (Hfree & _ & -> & _)
    end;
    intros j u Hj; by rewrite lookup_insert_ne by congruence.
Qed.

Lemma router_keepsUnique v env req : frames keepsUnique (router v env req).
Proof.
  destruct v; unfold_routes; walk keepsUnique_trans; step; unfold keepsUnique; simpl;
    try done;
    match goal with
    | Hs : User.save _ _ _ _ _ = Normal _ |- _ =>
        apply save_inserts in Hs as (Hfree & Hnew & -> & _)
    end;
    intros Huniq i j u1 u2 Hi Hj Heq;
    (destruct (decide (i = new_oid env)) as [->|Hni];
     [rewrite lookup_insert_eq in Hi
     |rewrite lookup_insert_ne in Hi by done]);
    (destruct (decide (j = new_oid env)) as [->|Hnj];
     [rewrite lookup_insert_eq in Hj
     |rewrite lookup_insert_ne in Hj by done]);
    simplify_eq; try done;
    solve [ exfalso; eapply Hnew; eauto; congruence | by eapply Huniq ].
Qed.

(** X14. No request updates or deletes a user: a stored user is still
    stored, unchanged, after any sequence of requests. *)
Theorem users_are_never_removed v srv trace id u :
  users srv !! id = Some u →
  users (run v srv trace) !! id = Some u.
Proof.
  revert srv. induction trace as [|[env req] rest IH]; intros srv Hu; simpl; [done|].
  apply IH. rewrite app_serve, serve_unfold; simpl. rewrite saveSession_users.
  by apply (router_usersKept v env req).
Qed.

(** X15. Usernames stay unique: if no two stored users share a username,
    none do after any sequence of (sequential) requests. *)
Theorem usernames_stay_unique v srv trace :
  uniqueUsernames (users srv) →
  uniqueUsernames (users (run v srv trace)).
Proof.
  revert srv. induction trace as [|[env req] rest IH]; intros srv Hu; simpl; [done|].
  apply IH. rewrite app_serve, serve_unfold; simpl. rewrite saveSession_users.
  by apply (router_keepsUnique v env req).
Qed.
End Invariants.

Section Accounts.
Context `{Runtime}.

(** The login route on a user whose password verifies. *)
Lemma login_succeeds v env srv req u p :
  route req = PostLogin →
  User.findOne (prop (body req) "username") (users srv) = Normal (Some u) →
  prop (body req) "password" = JString p →
  bcrypt_compare p (User.password u.2) = true →
  app v env srv req
  = let l := loadSession (sessions srv) (cookie req) env in
    let s' := Session.mk (Some u.1) (User.role u.2) in
    let r := respond 200 (MessageUser
               (match v with
                | ServerJsFile => "Sisselogimine õnnestus"
                | Part001File => "Login successful"
                end) (User.role u.2) u.1) in
    if bool_decide (s' = l.2) then (srv, mkReply r None)
    else (mkServer (users srv) (buses srv) (<[l.1 := s']> (sessions srv)),
          mkReply r (Some l.1)).
Proof.
  intros Hr Hf Hp Hc. destruct srv as [us bs ss]; simpl in Hf.
  destruct v; unfold app, ServerJs.app, Part001.app, serve;
    destruct (loadSession _ _ _) as [sid0 loaded];
    unfold ServerJs.router, Part001.router; rewrite Hr;
    unfold ServerJs.login, Part001.login, try_catch, mbind, Handler_bind,
      onUsers; simpl; rewrite Hf; simpl; rewrite Hp; simpl; rewrite Hc; simpl;
    unfold saveSession; simpl; by destruct (bool_decide _).
Qed.

(** X16. A login whose password verifies is answered 200 with the user's
    id and role, and from then on the request's session id names a stored
    session holding that id and role; the cookie is set unless the session
    already held them.  Users and buses are untouched. *)
Theorem login_establishes_session v env srv req u p :
  route req = PostLogin →
  User.findOne (prop (body req) "username") (users srv) = Normal (Some u) →
  prop (body req) "password" = JString p →
  bcrypt_compare p (User.password u.2) = true →
  status (response (app v env srv req).2) = 200
  ∧ (∃ m, json (response (app v env srv req).2) = MessageUser m (User.role u.2) u.1)
  ∧ sessions (app v env srv req).1 !! (loadSession (sessions srv) (cookie req) env).1
    = Some (Session.mk (Some u.1) (User.role u.2))
  ∧ (set_cookie (app v env srv req).2
     = Some (loadSession (sessions srv) (cookie req) env).1
     ∨ requestSession srv req env = Session.mk (Some u.1) (User.role u.2))
  ∧ users (app v env srv req).1 = users srv
  ∧ buses (app v env srv req).1 = buses srv.
Proof.
  intros Hr Hf Hp Hc. rewrite (login_succeeds v env srv req u p Hr Hf Hp Hc).
  cbv zeta. unfold requestSession. case_bool_decide as Hd; simpl.
  - split_and!; try done; [by eexists| |by right].
    destruct (loadSession_fresh_or_stored (sessions srv) (cookie req) env)
      as [Hfr|(sid & _ & Hst & <-)].
    + rewrite Hfr in Hd. discriminate.
    + by rewrite Hst, Hd.
  - split_and!; try done; [by eexists| |by left]. apply lookup_insert_eq.
Qed.

(** After a user is inserted under a free username, looking that username
    up finds that user. *)
Lemma findOne_inserted name id doc coll :
  User.username doc = name →
  (∀ j u, coll !! j = Some u → User.username u ≠ name) →
  User.findOne (JString name) (<[id := doc]> coll) = Normal (Some (id, doc)).
Proof.
  intros Hn Hfree. unfold User.findOne; simpl.
  destruct (find_user_Some name id doc (<[id := doc]> coll)) as [[k d] Hk];
    [apply lookup_insert_eq | done |].
  rewrite Hk; simpl. f_equal. f_equal.
  apply list_find_Some in Hk as (Hk & Hd & _).
  apply list_elem_of_lookup_2, elem_of_map_to_list' in Hk.
  destruct (decide (d.1 = id)) as [Heq|Hne].
  - rewrite Heq, lookup_insert_eq in Hk. destruct d; simpl in *. congruence.
  - rewrite lookup_insert_ne in Hk by done. by destruct (Hfree _ _ Hk).
Qed.

(** The registration route when [save()] succeeds, for a request that
    brought no cookie. *)
Lemma register_outcome_no_cookie v env srv req p coll id doc :
  route req = PostRegister → cookie req = None →
  User.findOne (prop (body req) "username") (users srv) = Normal None →
  prop (body req) "password" = JString p →
  User.save (new_oid env) (prop (body req) "username")
    (JString (bcrypt_hash (salt env) p))
    (match v with
     | ServerJsFile => js_or (prop (body req) "role") (JString "user")
     | Part001File => prop (body req) "role"
     end) (users srv) = Normal (coll, (id, doc)) →
  app v env srv req
  = (mkServer coll (buses srv)
       (<[new_sid env := Session.mk (Some id) (User.role doc)]> (sessions srv)),
     mkReply (respond 201 (MessageUser
                (match v with
                 | ServerJsFile => "Kasutaja loodud"
                 | Part001File => "User registered successfully"
                 end) (User.role doc) id)) (Some (new_sid env))).
Proof.
  intros Hr Hc Hf Hp Hsave. destruct srv as [us bs ss]; simpl in Hf, Hsave.
  destruct v; unfold app, ServerJs.app, Part001.app, serve, loadSession;
    rewrite Hc;
    unfold ServerJs.router, Part001.router; rewrite Hr;
    unfold ServerJs.register, Part001.register, try_catch, mbind, Handler_bind,
      onUsers; simpl; rewrite Hf; simpl; rewrite Hp; simpl; rewrite Hsave; simpl;
    unfold saveSession; simpl; done.
Qed.

(** X17. Register, then log in.  Provided bcrypt verifies a password
    against its own hash, registering a fresh username and then logging in
    with the same username and password is answered 200 with the id and the
    role the registration was given. *)
Theorem register_then_login v env1 env2 srv req1 req2 name pw :
  bcrypt_compare pw (bcrypt_hash (salt env1) pw) = true →
  route req1 = PostRegister → route req2 = PostLogin →
  prop (body req1) "username" = JString name → name ≠ "" →
  prop (body req1) "password" = JString pw →
  prop (body req1) "role" ∈ [JUndefined; JString "user"; JString "admin"] →
  prop (body req2) "username" = JString name →
  prop (body req2) "password" = JString pw →
  (∀ id u, users srv !! id = Some u → User.username u ≠ name) →
  users srv !! new_oid env1 = None →
  ∃ m1 m2 r,
    response (app v env1 srv req1).2
    = respond 201 (MessageUser m1 r (new_oid env1))
    ∧ response (app v env2 (app v env1 srv req1).1 req2).2
      = respond 200 (MessageUser m2 r (new_oid env1)).
Proof.
  intros Hbc Hr1 Hr2 Hu1 Hne Hp1 Hrole Hu2 Hp2 Hfree Hid.
  assert (User.findOne (prop (body req1) "username") (users srv) = Normal None) as Hf.
  { apply findOne_absent. intros id u Hlk. rewrite Hu1; simpl.
    intros [= ->]. by apply (Hfree id u). }
  destruct (validRole_accepted v _ Hrole) as [r Hvalid].
  pose proof (save_accepts (new_oid env1) (JString name)
                (bcrypt_hash (salt env1) pw) _ name r (users srv) eq_refl Hne
                (bcrypt_hash_nonempty _ _) Hvalid Hid Hfree) as Hsave.
  rewrite <- Hu1 in Hsave.
  destruct (register_succeeds v env1 srv req1 pw _ _ _ Hr1 Hf Hp1 Hsave)
    as (H201 & [m1 Hj] & Hus & _).
  assert (User.findOne (prop (body req2) "username") (users (app v env1 srv req1).1)
          = Normal (Some (new_oid env1, User.mk name (bcrypt_hash (salt env1) pw) r)))
    as Hfound.
  { rewrite Hu2, Hus. by apply findOne_inserted. }
  rewrite (login_succeeds v env2 _ req2 _ pw Hr2 Hfound Hp2 Hbc).
  exists m1, (match v with
              | ServerJsFile => "Sisselogimine õnnestus"
              | Part001File => "Login successful"
              end), r.
  split.
  - destruct (response (app v env1 srv req1).2) as [st js]; simpl in *. congruence.
  - cbv zeta. by case_bool_decide.
Qed.

(** An administrator's session opens the three guarded routes. *)
Lemma admin_passes_guards v env srv req sid s :
  cookie req = Some sid → sessions srv !! sid = Some s → isAdmin s →
  mutating (route req) = true →
  status (response (app v env srv req).2) ∈ [200; 201; 400; 404; 500].
Proof.
  intros Hc Hs Ha Hm. destruct (route req) as [| | | | |id|id] eqn:Hr; try done.
  - destruct v; simpl.
    + rewrite (serverjs_create_outcome env srv req sid s) by done.
      destruct (ServerJs.someFalsy _); [set_solver|].
      destruct (Bus.save _ _ _) as [[coll bus]|e]; set_solver.
    + rewrite (part001_create_outcome env srv req sid s) by done.
      destruct (Bus.save _ _ _) as [[coll bus]|e]; set_solver.
  - rewrite (update_outcome v env srv req sid s id Hc Hs Ha Hr).
    destruct (Bus.findByIdAndUpdate _ _ _ _) as [[coll [bus|]]|e]; set_solver.
  - rewrite (delete_outcome v env srv req sid s id Hc Hs Ha Hr).
    destruct (Bus.findByIdAndDelete _ _) as [[coll [bus|]]|e]; set_solver.
Qed.

(** X18. The role is the registrant's to choose: registering a fresh
    username with the role ["admin"] is answered 201 with a cookie, the
    session that cookie names is an administrator's, and a create, update or
    delete request that brings the cookie is let through both guards
    (neither 401 nor 403). *)
Theorem register_as_admin_opens_guarded_routes v env1 env2 srv req1 req2 name pw :
  route req1 = PostRegister → cookie req1 = None →
  prop (body req1) "username" = JString name → name ≠ "" →
  prop (body req1) "password" = JString pw →
  prop (body req1) "role" = JString "admin" →
  (∀ id u, users srv !! id = Some u → User.username u ≠ name) →
  users srv !! new_oid env1 = None →
  cookie req2 = Some (new_sid env1) → mutating (route req2) = true →
  status (response (app v env1 srv req1).2) = 201
  ∧ set_cookie (app v env1 srv req1).2 = Some (new_sid env1)
  ∧ sessions (app v env1 srv req1).1 !! new_sid env1
    = Some (Session.mk (Some (new_oid env1)) (Some "admin"))
  ∧ status (response (app v env2 (app v env1 srv req1).1 req2).2)
    ∈ [200; 201; 400; 404; 500].
Proof.
  intros Hr1 Hc1 Hu Hne Hp Hrole Hfree Hid Hc2 Hm.
  assert (User.findOne (prop (body req1) "username") (users srv) = Normal None) as Hf.
  { apply findOne_absent. intros id u Hlk. rewrite Hu; simpl.
    intros [= ->]. by apply (Hfree id u). }
  pose proof (save_accepts (new_oid env1) (JString name)
                (bcrypt_hash (salt env1) pw)
                (match v with
                 | ServerJsFile => js_or (JString "admin") (JString "user")
                 | Part001File => JString "admin"
                 end) name (Some "admin") (users srv) eq_refl Hne
                (bcrypt_hash_nonempty _ _) ltac:(by destruct v) Hid Hfree) as Hsave.
  rewrite <- Hu, <- Hrole in Hsave.
  rewrite (register_outcome_no_cookie v env1 srv req1 pw _ _ _ Hr1 Hc1 Hf Hp Hsave).
  simpl. split_and!; try done; [apply lookup_insert_eq|].
  eapply admin_passes_guards; eauto.
  - simpl. apply lookup_insert_eq.
  - split; [by eexists|done].
Qed.

(** X19. A registration that cannot be stored is answered 500 and leaves
    nothing behind: when the password is missing or not a string (bcrypt
    rejects it), or when the username is missing, [null] or empty (the
    schema requires it), and nobody holds that username, no user is stored,
    no session is created and no cookie is set. *)
Theorem register_bad_input_500 v env srv req :
  route req = PostRegister →
  (∀ id u, users srv !! id = Some u →
           castString (prop (body req) "username") ≠ Value (User.username u)) →
  ((∀ p, prop (body req) "password" ≠ JString p)
   ∨ prop (body req) "username" ∈ [JUndefined; JNull; JString ""]) →
  status (response (app v env srv req).2) = 500
  ∧ set_cookie (app v env srv req).2 = None
  ∧ (app v env srv req).1 = srv.
Proof.
  intros Hr Habs Hbad.
  rewrite (register_fails v env srv req Hr (findOne_absent _ _ Habs)); [done|].
  intros p Hp. destruct Hbad as [Hnp|Hu]; [by destruct (Hnp p)|].
  exists ValidationError. unfold User.save, User.validate.
  repeat (apply elem_of_cons in Hu as [->|Hu]; [done|]).
  by apply elem_of_nil in Hu.
Qed.

(** X20. A login without a usable password tells known usernames from
    unknown ones: when the password is missing or not a string, the answer
    is 401 if nobody holds the username, and 500 if somebody does (bcrypt
    rejects the comparison and the [catch] block answers).  Either way
    nothing changes and no cookie is set. *)
Theorem login_without_password v env srv req :
  route req = PostLogin →
  (∀ p, prop (body req) "password" ≠ JString p) →
  status (response (app v env srv req).2)
  = match User.findOne (prop (body req) "username") (users srv) with
    | Normal None => 401
    | _ => 500
    end
  ∧ set_cookie (app v env srv req).2 = None
  ∧ (app v env srv req).1 = srv.
Proof.
  intros Hr Hnp.
  destruct (User.findOne (prop (body req) "username") (users srv))
    as [[u|]|e] eqn:Hf.
  - destruct srv as [us bs ss]; simpl in Hf.
    destruct v; unfold app, ServerJs.app, Part001.app, serve;
      destruct (loadSession _ _ _) as [sid0 loaded];
      unfold ServerJs.router, Part001.router; rewrite Hr;
      unfold ServerJs.login, Part001.login, try_catch, mbind, Handler_bind,
        onUsers; simpl; rewrite Hf; simpl;
      (destruct (prop (body req) "password") as [| | | |p] eqn:Hp;
       [| | | |by destruct (Hnp p)]); simpl;
      by rewrite saveSession_unchanged.
  - by rewrite (login_unknown_user v env srv req Hr Hf).
  - destruct srv as [us bs ss]; simpl in Hf.
    destruct v; unfold app, ServerJs.app, Part001.app, serve;
      destruct (loadSession _ _ _) as [sid0 loaded];
      unfold ServerJs.router, Part001.router; rewrite Hr;
      unfold ServerJs.login, Part001.login, try_catch, mbind, Handler_bind,
        onUsers; simpl; rewrite Hf; simpl;
      by rewrite saveSession_unchanged.
Qed.
End Accounts.

Section Answers.
Context `{Runtime}.

Lemma router_answers v env req : answers routeAnswer (router v env req).
Proof.
  destruct v; unfold_routes;
    repeat first
      [ apply answers_try_catch; [|intros ?]
      | apply answers_bind; intros ?
      | apply answers_ret; split; [unfold statuses; set_solver | discriminate]
      | match goal with
        | |- answers _ (match ?x with _ => _ end) => destruct x
        | |- answers _ (let _ := _ in _) => cbv zeta
        end ].
Qed.

(** X21. Every route catches its own failures: whatever the request, the
    handler returns an answer of its own rather than letting an exception
    reach the framework, and the status is one of 200, 201, 400, 401, 403,
    404 and 500. *)
Theorem every_request_is_answered_by_a_route v env srv req :
  status (response (app v env srv req).2) ∈ statuses
  ∧ json (response (app v env srv req).2) ≠ ErrorPage.
Proof.
  rewrite app_serve, serve_unfold; simpl.
  set (ctx0 := mkCtx srv (loadSession (sessions srv) (cookie req) env).1
                 (Some (loadSession (sessions srv) (cookie req) env).2)).
  destruct (router_returns v env req ctx0) as [r Hr]; [by eexists|].
  pose proof (router_answers v env req ctx0) as Ha.
  rewrite Hr in Ha |- *. exact Ha.
Qed.
End Answers.

(** ** The further properties at concrete requests *)

(** X1, at a stored session that claims the admin role but has no user. *)
Lemma unauthenticated_request_401_witness :
  status (response (app Part001File Sample.env0 Inputs.roleOnly
            (mkRequest (Some "odd") (DeleteBus Sample.id1) ∅)).2) = 401.
Proof.
  apply (unauthenticated_request_401 Part001File Sample.env0 Inputs.roleOnly
           (mkRequest (Some "odd") (DeleteBus Sample.id1) ∅));
    [reflexivity | vm_compute; reflexivity].
Defined.

(** X2, at the ["user"] session trying to delete the stored bus. *)
Lemma buses_change_only_for_admin_witness :
  buses (app ServerJsFile Sample.env0 Sample.withBus
           (mkRequest (Some "usr") (DeleteBus Sample.id1) ∅)).1
  = buses Sample.withBus.
Proof.
  apply (buses_change_only_for_admin ServerJsFile Sample.env0 Sample.withBus
           (mkRequest (Some "usr") (DeleteBus Sample.id1) ∅)).
  intros [_ Hr]. vm_compute in Hr. discriminate.
Defined.

(** X3, at a login. *)
Lemma users_change_only_by_register_witness :
  users (app Part001File Sample.env0 Sample.withBob
           (mkRequest None PostLogin (Sample.loginBody "bob" "pw"))).1
  = users Sample.withBob.
Proof.
  apply (users_change_only_by_register Part001File Sample.env0 Sample.withBob
           (mkRequest None PostLogin (Sample.loginBody "bob" "pw"))).
  discriminate.
Defined.

(** X4, at an anonymous list request. *)
Lemma cookie_only_from_register_or_login_witness :
  set_cookie (app Part001File Sample.env0 Sample.withBus
                (mkRequest None GetBuses ∅)).2 = None.
Proof.
  apply (cookie_only_from_register_or_login Part001File Sample.env0 Sample.withBus
           (mkRequest None GetBuses ∅)); discriminate.
Defined.

(** X5, at a logout request sent to [src/server.js]. *)
Lemma serverjs_never_ends_a_session_witness :
  is_Some (sessions (run ServerJsFile Sample.withSessions
                       [(Sample.env0, mkRequest (Some "adm") PostLogout ∅)]) !! "adm").
Proof.
  apply (serverjs_never_ends_a_session Sample.withSessions
           [(Sample.env0, mkRequest (Some "adm") PostLogout ∅)] "adm").
  exists Sample.adminSession. vm_compute. reflexivity.
Defined.

(** X6, at a logout request without a cookie. *)
Lemma logout_removes_only_own_session_witness :
  response (app Part001File Sample.env0 Sample.withSessions
              (mkRequest None PostLogout ∅)).2
  = respond 200 (Message "Logout successful").
Proof.
  apply (logout_removes_only_own_session Sample.env0 Sample.withSessions
           (mkRequest None PostLogout ∅)).
  reflexivity.
Defined.

(** X7, at the server with one stored bus. *)
Lemma list_returns_stored_buses_witness :
  ∃ l, response (app ServerJsFile Sample.env0 Sample.withBus
                   (mkRequest None GetBuses ∅)).2 = respond 200 (BusArray l)
       ∧ (1%N, Sample.storedBus) ∈ l.
Proof.
  destruct (list_returns_stored_buses ServerJsFile Sample.env0 Sample.withBus
              (mkRequest None GetBuses ∅) eq_refl) as (l & Hl & Hin & _).
  exists l. split; [exact Hl|]. apply Hin. vm_compute. reflexivity.
Defined.

(** X8, at a delete of the stored bus. *)
Lemma delete_outcome_by_id_witness :
  status (response (app Part001File Sample.env0 Sample.withBus
            (mkRequest (Some "adm") (DeleteBus Sample.id1) ∅)).2) = 200.
Proof.
  destruct (delete_outcome_by_id Part001File Sample.env0 Sample.withBus
              (mkRequest (Some "adm") (DeleteBus Sample.id1) ∅)
              "adm" Sample.adminSession Sample.id1)
    as (_ & H200 & _);
    [reflexivity | vm_compute; reflexivity | split; [by eexists | reflexivity]
    | reflexivity |].
  apply H200. exists 1%N. split; [vm_compute; reflexivity|].
  exists Sample.storedBus. vm_compute. reflexivity.
Defined.

(** X9, at an update of an id that no bus has. *)
Lemma update_touches_one_record_witness :
  dom (buses (app ServerJsFile Sample.env0 Sample.withBus
                (mkRequest (Some "adm") (PutBus Sample.id2)
                   {["seats" := JNumber 12]})).1)
  = dom (buses Sample.withBus).
Proof.
  apply (update_touches_one_record ServerJsFile Sample.env0 Sample.withBus
           (mkRequest (Some "adm") (PutBus Sample.id2) {["seats" := JNumber 12]})
           "adm" Sample.adminSession Sample.id2);
    [reflexivity | vm_compute; reflexivity | split; [by eexists | reflexivity]
    | reflexivity].
Defined.

(** X10, at the sample payload. *)
Lemma create_well_formed_201_witness :
  status (response (app ServerJsFile Sample.env0 Sample.withSessions
            (mkRequest (Some "adm") PostBuses Sample.completeBus)).2) = 201.
Proof.
  apply (create_well_formed_201 ServerJsFile Sample.env0 Sample.withSessions
           (mkRequest (Some "adm") PostBuses Sample.completeBus)
           "adm" Sample.adminSession "12A" 40%Z "R1" "A" "B" "08:00");
    try discriminate;
    [reflexivity | vm_compute; reflexivity | split; [by eexists | reflexivity]
    | reflexivity | vm_compute; reflexivity | vm_compute; reflexivity].
Defined.

(** X11, at a payload without seats. *)
Lemma create_adds_one_record_witness :
  (app ServerJsFile Sample.env0 Sample.withBus
     (mkRequest (Some "adm") PostBuses (delete "seats" Sample.completeBus))).1
  = Sample.withBus.
Proof.
  destruct (create_adds_one_record ServerJsFile Sample.env0 Sample.withBus
              (mkRequest (Some "adm") PostBuses (delete "seats" Sample.completeBus))
              "adm" Sample.adminSession)
    as (_ & Hsame & _);
    [reflexivity | vm_compute; reflexivity | split; [by eexists | reflexivity]
    | reflexivity |].
  apply Hsame. vm_compute. discriminate.
Defined.

(** X12, at [{seats: null}] on the stored bus, in both variants. *)
Lemma update_with_null_seats_witness :
  status (response (app Part001File Sample.env0 Sample.withBus
            (mkRequest (Some "adm") (PutBus Sample.id1) Inputs.nullSeats)).2) = 200
  ∧ status (response (app ServerJsFile Sample.env0 Sample.withBus
              (mkRequest (Some "adm") (PutBus Sample.id1) Inputs.nullSeats)).2) = 500.
Proof.
  split.
  - apply (update_with_null_seats Part001File Sample.env0 Sample.withBus
             (mkRequest (Some "adm") (PutBus Sample.id1) Inputs.nullSeats)
             "adm" Sample.adminSession Sample.id1 1%N Sample.storedBus);
      [reflexivity | vm_compute; reflexivity | split; [by eexists | reflexivity]
      | reflexivity | vm_compute; reflexivity | vm_compute; reflexivity
      | vm_compute; reflexivity | vm_compute; reflexivity].
  - apply (update_with_null_seats ServerJsFile Sample.env0 Sample.withBus
             (mkRequest (Some "adm") (PutBus Sample.id1) Inputs.nullSeats)
             "adm" Sample.adminSession Sample.id1 1%N Sample.storedBus);
      [reflexivity | vm_compute; reflexivity | split; [by eexists | reflexivity]
      | reflexivity | vm_compute; reflexivity | vm_compute; reflexivity
      | vm_compute; reflexivity | vm_compute; reflexivity].
Defined.

(** X13, at the server with one stored bus and an attempt to empty a
    field. *)
Lemma serverjs_buses_stay_populated_witness :
  allPopulated (buses (run ServerJsFile Sample.withBus
    [(Sample.env0, mkRequest (Some "adm") (PutBus Sample.id1) Inputs.nullSeats)])).
Proof.
  apply (serverjs_buses_stay_populated Sample.withBus
           [(Sample.env0, mkRequest (Some "adm") (PutBus Sample.id1) Inputs.nullSeats)]).
  intros i doc Hi. simpl in Hi.
  apply lookup_insert_Some in Hi as [[_ <-]|[_ Hi]];
    [|by rewrite lookup_empty in Hi].
  unfold populated, populatedString; simpl.
  split_and!; try (by eexists); eexists; (split; [reflexivity|discriminate]).
Defined.

(** X14 and X15, at a second registration on the server where ["bob"] is
    registered. *)
Lemma users_are_never_removed_witness :
  users (run Part001File Sample.withBob
           [(Sample.env1, mkRequest None PostRegister Sample.superuserBody)]) !! 1%N
  = Some Sample.bobUser.
Proof.
  apply (users_are_never_removed Part001File Sample.withBob
           [(Sample.env1, mkRequest None PostRegister Sample.superuserBody)]
           1%N Sample.bobUser).
  vm_compute. reflexivity.
Defined.

Lemma usernames_stay_unique_witness :
  uniqueUsernames (users (run ServerJsFile Sample.withBob
    [(Sample.env1, mkRequest None PostRegister Sample.bobBody)])).
Proof.
  apply (usernames_stay_unique ServerJsFile Sample.withBob
           [(Sample.env1, mkRequest None PostRegister Sample.bobBody)]).
  intros i j u1 u2 Hi Hj _. simpl in Hi, Hj.
  apply lookup_insert_Some in Hi as [[<- _]|[_ Hi]];
    [|by rewrite lookup_empty in Hi].
  apply lookup_insert_Some in Hj as [[<- _]|[_ Hj]];
    [done|by rewrite lookup_empty in Hj].
Defined.

(** X16, at bob's login. *)
Lemma login_establishes_session_witness :
  status (response (app Part001File Sample.env0 Sample.withBob
            (mkRequest None PostLogin (Sample.loginBody "bob" "pw"))).2) = 200.
Proof.
  apply (login_establishes_session Part001File Sample.env0 Sample.withBob
           (mkRequest None PostLogin (Sample.loginBody "bob" "pw"))
           (1%N, Sample.bobUser) "pw");
    [reflexivity | vm_compute; reflexivity | reflexivity | vm_compute; reflexivity].
Defined.

(** X17, at bob's registration and login on an empty server. *)
Lemma register_then_login_witness :
  ∃ m r,
    response (app Part001File Sample.env1
                (app Part001File Sample.env0 Sample.empty
                   (mkRequest None PostRegister Sample.bobBody)).1
                (mkRequest None PostLogin (Sample.loginBody "bob" "pw"))).2
    = respond 200 (MessageUser m r 1%N).
Proof.
  destruct (register_then_login Part001File Sample.env0 Sample.env1 Sample.empty
              (mkRequest None PostRegister Sample.bobBody)
              (mkRequest None PostLogin (Sample.loginBody "bob" "pw")) "bob" "pw")
    as (m1 & m2 & r & _ & Hlogin);
    [vm_compute; reflexivity | reflexivity | reflexivity | reflexivity | discriminate
    | reflexivity | apply list_elem_of_here | reflexivity | reflexivity
    | intros id u Hu; vm_compute in Hu; discriminate | reflexivity |].
  by exists m2, r.
Defined.

(** X18, at a registration with the role ["admin"] followed by a create. *)
Lemma register_as_admin_opens_guarded_routes_witness :
  set_cookie (app Part001File Sample.env0 Sample.empty
                (mkRequest None PostRegister Inputs.adminBody)).2 = Some "s1"
  ∧ status (response
      (app Part001File Sample.env1
         (app Part001File Sample.env0 Sample.empty
            (mkRequest None PostRegister Inputs.adminBody)).1
         (mkRequest (Some "s1") PostBuses Sample.completeBus)).2)
    ∈ [200; 201; 400; 404; 500].
Proof.
  destruct (register_as_admin_opens_guarded_routes Part001File Sample.env0 Sample.env1
              Sample.empty (mkRequest None PostRegister Inputs.adminBody)
              (mkRequest (Some "s1") PostBuses Sample.completeBus) "bob" "pw")
    as (_ & Hcookie & _ & Hst);
    [reflexivity | reflexivity | reflexivity | discriminate | reflexivity
    | reflexivity | intros id u Hu; vm_compute in Hu; discriminate | reflexivity
    | reflexivity | reflexivity |].
  split; [exact Hcookie | exact Hst].
Defined.

(** X19, at a registration without a password. *)
Lemma register_bad_input_500_witness :
  status (response (app Part001File Sample.env0 Sample.empty
            (mkRequest None PostRegister Inputs.noPassword)).2) = 500.
Proof.
  apply (register_bad_input_500 Part001File Sample.env0 Sample.empty
           (mkRequest None PostRegister Inputs.noPassword)).
  - reflexivity.
  - intros id u Hu. vm_compute in Hu. discriminate.
  - left. intros p Hp. vm_compute in Hp. discriminate.
Defined.

(** X20, at a login without a password for the registered ["bob"]. *)
Lemma login_without_password_witness :
  status (response (app Part001File Sample.env0 Sample.withBob
            (mkRequest None PostLogin Inputs.noPassword)).2) = 500.
Proof.
  destruct (login_without_password Part001File Sample.env0 Sample.withBob
              (mkRequest None PostLogin Inputs.noPassword)) as (Hst & _);
    [reflexivity | intros p Hp; vm_compute in Hp; discriminate |].
  rewrite Hst. vm_compute. reflexivity.
Defined.
